(** * The output image tag step of ci-operator

    A shallow embedding of
    [vendor/github.com/openshift/ci-operator/pkg/steps/output_image_tag.go]:
    the step that makes a tag of a named image stream point at a built
    pipeline image.  The remote store is reached through the two clients of
    the step; here every remote call (and every line written to the log or
    to standard output) is an operation of a small program monad, so that a
    run of the step can be executed against any store and its sequence of
    calls inspected. *)

From Stdlib Require Import ZArith Ascii String List Bool Lia.
From stdpp Require Import base option strings gmap list.

Local Open Scope string_scope.

(** ** Errors ([k8s.io/apimachinery/pkg/api/errors]) *)

Inductive StatusReason : Type :=
| StatusReasonUnknown
| StatusReasonNotFound
| StatusReasonAlreadyExists
| StatusReasonConflict.

(** A Go [error]: either a status error of the store, carrying its reason,
    or a plain error as [fmt.Errorf] builds it. *)
Inductive error : Type :=
| StatusError (reason : StatusReason) (message : string)
| errorString (message : string).

(** [err.Error()], which is also what the verb [%v] prints. *)
Definition Error (e : error) : string :=
  match e with
  | StatusError _ m => m
  | errorString m => m
  end.

Definition ReasonForError (e : error) : StatusReason :=
  match e with
  | StatusError r _ => r
  | errorString _ => StatusReasonUnknown
  end.

Definition IsNotFound (e : error) : bool :=
  match ReasonForError e with StatusReasonNotFound => true | _ => false end.

Definition IsAlreadyExists (e : error) : bool :=
  match ReasonForError e with StatusReasonAlreadyExists => true | _ => false end.

Definition IsConflict (e : error) : bool :=
  match ReasonForError e with StatusReasonConflict => true | _ => false end.

(** [fmt.Errorf(prefix + ": %v", err)] *)
Definition Errorf (prefix : string) (err : error) : error :=
  errorString (prefix +:+ ": " +:+ Error err).

(** A Go result pair [(value, err)] of a call whose value is meaningless
    when [err] is not nil. *)
Definition Result (A : Type) : Type := (A + error)%type.

(** ** API objects *)

(** [meta.ObjectMeta], with the fields this step reads or writes. *)
Record ObjectMeta : Type := mkObjectMeta {
  Name : string;
  Namespace : string;
  ResourceVersion : string
}.

(** [coreapi.ObjectReference], with all its fields: the comparison of
    [Done] looks at every one of them. *)
Record ObjectReference : Type := mkObjectReference {
  ref_Kind : string;
  ref_Name : string;
  ref_Namespace : string;
  ref_UID : string;
  ref_APIVersion : string;
  ref_ResourceVersion : string;
  ref_FieldPath : string
}.

Definition TagReferencePolicyType : Type := string.

Record TagReferencePolicy : Type := mkTagReferencePolicy {
  policy_Type : TagReferencePolicyType
}.

Record TagImportPolicy : Type := mkTagImportPolicy {
  Insecure : bool;
  Scheduled : bool
}.

(** [imageapi.TagReference], with all its fields.  The step sets
    [ReferencePolicy] and [From]; the other fields keep their zero value in
    the resource it builds, and are whatever the store holds in a resource
    it returns. *)
Record TagReference : Type := mkTagReference {
  tag_Name : string;
  Annotations : gmap string string;
  From : option ObjectReference;
  Reference : bool;
  Generation : option Z;
  ImportPolicy : TagImportPolicy;
  ReferencePolicy : TagReferencePolicy
}.

(** [imageapi.Image]: only its object name, the immutable identity of the
    image, is read. *)
Record Image : Type := mkImage {
  image_ObjectMeta : ObjectMeta
}.

Record ImageStreamTag : Type := mkImageStreamTag {
  ist_ObjectMeta : ObjectMeta;
  Tag : option TagReference;
  ist_Image : Image
}.

Record ImageStreamStatus : Type := mkImageStreamStatus {
  DockerImageRepository : string;
  PublicDockerImageRepository : string
}.

Record ImageStream : Type := mkImageStream {
  is_ObjectMeta : ObjectMeta;
  Status : ImageStreamStatus
}.

Definition zeroObjectMeta : ObjectMeta := mkObjectMeta "" "" "".
Definition zeroImage : Image := mkImage zeroObjectMeta.

#[global] Instance ObjectMeta_eq_dec : EqDecision ObjectMeta.
Proof. solve_decision. Defined.
#[global] Instance ObjectReference_eq_dec : EqDecision ObjectReference.
Proof. solve_decision. Defined.
#[global] Instance TagReferencePolicy_eq_dec : EqDecision TagReferencePolicy.
Proof. unfold TagReferencePolicyType. solve_decision. Defined.
#[global] Instance TagImportPolicy_eq_dec : EqDecision TagImportPolicy.
Proof. solve_decision. Defined.
#[global] Instance TagReference_eq_dec : EqDecision TagReference.
Proof. solve_decision. Defined.

(** [equality.Semantic.DeepEqual] at the type [*imageapi.TagReference]: two
    nil pointers are equal, a nil and a non-nil pointer are not, and two
    non-nil pointers are compared field by field, through every field of
    the tag reference and of the object reference it points to.  A nil and
    an empty annotation map are equal for it; both are the empty [gmap]
    here. *)
Definition Semantic_DeepEqual (a b : option TagReference) : bool :=
  bool_decide (a = b).

(** [ist.ResourceVersion = v] *)
Definition set_ResourceVersion (ist : ImageStreamTag) (v : string) : ImageStreamTag :=
  mkImageStreamTag
    (mkObjectMeta (Name (ist_ObjectMeta ist)) (Namespace (ist_ObjectMeta ist)) v)
    (Tag ist) (ist_Image ist).

(** ** Configuration ([pkg/api]) *)

Definition PipelineImageStreamTagReference : Type := string.

Record ImageStreamTagReference : Type := mkImageStreamTagReference {
  to_Namespace : string;
  to_Name : string;
  to_Tag : string;
  As : string
}.

Record OutputImageTagStepConfiguration : Type := mkOutputImageTagStepConfiguration {
  cfg_From : PipelineImageStreamTagReference;
  To : ImageStreamTagReference
}.

Record JobSpec : Type := mkJobSpec {
  job_Namespace : string
}.

(** [api.InputDefinition], a slice of strings. *)
Definition InputDefinition : Type := list string.

Inductive StepLink : Type :=
| InternalImageLink (ref : PipelineImageStreamTagReference)
| ExternalImageLink (ref : ImageStreamTagReference)
| ReleaseImagesLink.

(** ** Remote calls and the program monad *)

(** The operations a step performs on the outside world: the two writers
    [log.Printf] and [fmt.Printf], the pause of the retry loop, the calls
    [ImageStreamTags(ns).Get/Create/Update] of [istClient] and the call
    [ImageStreams(ns).Get] of [isClient]. *)
Inductive Op : Type :=
| LogPrintf (line : string)
| FmtPrintf (out : string)
| Sleep (delay : Z)
| IstGet (ns name : string)
| IstCreate (ns : string) (ist : ImageStreamTag)
| IstUpdate (ns : string) (ist : ImageStreamTag)
| IsGet (ns name : string).

Definition Resp (o : Op) : Type :=
  match o with
  | LogPrintf _ | FmtPrintf _ | Sleep _ => unit
  | IstGet _ _ | IstCreate _ _ | IstUpdate _ _ => Result ImageStreamTag
  | IsGet _ _ => Result ImageStream
  end.

Inductive Prog (R : Type) : Type :=
| Ret (r : R)
| Vis (o : Op) (k : Resp o -> Prog R).

Arguments Ret {R} r.
Arguments Vis {R} o k.

Fixpoint bind {A B : Type} (p : Prog A) (f : A -> Prog B) : Prog B :=
  match p with
  | Ret a => f a
  | Vis o k => Vis o (fun x => bind (k x) f)
  end.

Definition call (o : Op) : Prog (Resp o) := Vis o Ret.

Declare Scope prog_scope.
Delimit Scope prog_scope with prog.
Notation "x <- p ;; q" := (bind p (fun x => q))
  (at level 100, p at next level, right associativity) : prog_scope.
Notation "p ;;; q" := (bind p (fun _ => q))
  (at level 100, right associativity) : prog_scope.
Local Open Scope prog_scope.

(** The store, seen from the step: the calls of the two clients.  Each
    call answers and moves the store to a next state; the state may hold
    anything, the writes of other pipeline runs included. *)
Record Client (St : Type) : Type := mkClient {
  ImageStreamTags_Get : string -> string -> St -> Result ImageStreamTag * St;
  ImageStreamTags_Create : string -> ImageStreamTag -> St -> Result ImageStreamTag * St;
  ImageStreamTags_Update : string -> ImageStreamTag -> St -> Result ImageStreamTag * St;
  ImageStreams_Get : string -> string -> St -> Result ImageStream * St
}.
Arguments mkClient {St} _ _ _ _.
Arguments ImageStreamTags_Get {St} _ _ _ _.
Arguments ImageStreamTags_Create {St} _ _ _ _.
Arguments ImageStreamTags_Update {St} _ _ _ _.
Arguments ImageStreams_Get {St} _ _ _ _.

(** The answer to one operation.  Writing a line and pausing do not go
    through the clients. *)
Definition handle {St : Type} (c : Client St) (o : Op) (st : St) : Resp o * St :=
  match o return Resp o * St with
  | LogPrintf _ | FmtPrintf _ | Sleep _ => (tt, st)
  | IstGet ns name => ImageStreamTags_Get c ns name st
  | IstCreate ns ist => ImageStreamTags_Create c ns ist st
  | IstUpdate ns ist => ImageStreamTags_Update c ns ist st
  | IsGet ns name => ImageStreams_Get c ns name st
  end.

Record Outcome (R St : Type) : Type := mkOutcome {
  result : R;
  final : St;
  trace : list Op
}.
Arguments mkOutcome {R St} result final trace.
Arguments result {R St} _.
Arguments final {R St} _.
Arguments trace {R St} _.

(** Run a program against a store: the value it returns, the state the
    store is left in, and the operations performed, in order. *)
Fixpoint exec {R St : Type} (c : Client St) (p : Prog R) (st : St) : Outcome R St :=
  match p with
  | Ret r => mkOutcome r st []
  | Vis o k =>
      let a := handle c o st in
      let out := exec c (k (fst a)) (snd a) in
      mkOutcome (result out) (final out) (o :: trace out)
  end.

(** The operations that write to the store. *)
Definition is_mutation (o : Op) : bool :=
  match o with
  | IstCreate _ _ | IstUpdate _ _ => true
  | _ => false
  end.

Definition is_update (o : Op) : bool :=
  match o with
  | IstUpdate _ _ => true
  | _ => false
  end.

(** How many updates a run has attempted. *)
Definition updates (tr : list Op) : nat := length (List.filter is_update tr).

(** The operations that reach the store at all. *)
Definition is_remote (o : Op) : bool :=
  match o with
  | LogPrintf _ | FmtPrintf _ | Sleep _ => false
  | _ => true
  end.

(** ** What the step imports from outside the file *)

(** [wait.Backoff]: the bound on the number of attempts, and the pause
    before each further attempt. *)
Record Backoff : Type := mkBackoff {
  Steps : nat;
  Delay : nat -> Z
}.

(** The constants and helpers the source file takes from the packages it
    imports ([api], [imageapi], [encoding/json], [retry]); their
    declarations are not part of the file, so they are parameters. *)
Class Imports : Type := mkImports {
  Context : Type;
  PipelineImageStream : string;
  StableImageStream : string;
  LocalTagReferencePolicy : TagReferencePolicyType;
  MarshalIndent : ImageStreamTag -> Result string;
  DefaultRetry : Backoff
}.

(** Modelled from the spec: [retry.RetryOnConflict] of the vendored package
    [k8s.io/client-go/util/retry] is missing from the sources.  The spec
    has it as a bounded retry policy with backoff: the attempt is run at
    most [Steps] times, with a pause before each attempt but the first; it
    stops at the first attempt that succeeds or that fails with an error
    other than a conflict, and when the bound is exhausted the result is
    the last conflict.  The closure [fn] of the source assigns to a variable
    of the enclosing function, so it is given that variable's value and
    returns the new one. *)
Fixpoint RetryOnConflict_loop {S : Type} (delay : nat -> Z)
    (fn : S -> Prog (S * option error))
    (steps i : nat) (lastConflictErr : option error) (s : S)
    : Prog (S * option error) :=
  match steps with
  | O => Ret (s, lastConflictErr)
  | Datatypes.S steps' =>
      (match i with O => Ret tt | _ => call (Sleep (delay i)) end) ;;;
      r <- fn s ;;
      match r with
      | (s', None) => Ret (s', None)
      | (s', Some err) =>
          if IsConflict err
          then RetryOnConflict_loop delay fn steps' (Datatypes.S i) (Some err) s'
          else Ret (s', Some err)
      end
  end.

Definition RetryOnConflict {S : Type} (backoff : Backoff)
    (fn : S -> Prog (S * option error)) (s : S) : Prog (S * option error) :=
  RetryOnConflict_loop (Delay backoff) fn (Steps backoff) 0 None s.

(** [strings.Replace(s, "-", "_", -1)] *)
Fixpoint replace_dash (s : string) : string :=
  match s with
  | EmptyString => EmptyString
  | String c rest =>
      String (if Ascii.eqb c "-"%char then "_"%char else c) (replace_dash rest)
  end.

Definition upper_ascii (c : ascii) : ascii :=
  let n := nat_of_ascii c in
  if (97 <=? n)%nat && (n <=? 122)%nat then ascii_of_nat (n - 32) else c.

(** [strings.ToUpper], on the ASCII letters; a byte outside them is kept. *)
Fixpoint ToUpper (s : string) : string :=
  match s with
  | EmptyString => EmptyString
  | String c rest => String (upper_ascii c) (ToUpper rest)
  end.

(** [api.ParameterMap]: from the name of a parameter to the function that
    computes it on demand; the nil map is the empty map. *)
Definition Provider : Type := Prog (string * option error).

(** ** The step *)

Record outputImageTagStep : Type := mkOutputImageTagStep {
  config : OutputImageTagStepConfiguration;
  jobSpec : JobSpec
}.

Section Step.
Context `{Imports}.
Variable s : outputImageTagStep.

Definition namespace : string :=
  if negb (String.length (to_Namespace (To (config s))) =? 0)%nat
  then to_Namespace (To (config s))
  else job_Namespace (jobSpec s).

Definition imageStreamTag (fromImage : string) : ImageStreamTag :=
  {| ist_ObjectMeta :=
       {| Name := to_Name (To (config s)) +:+ ":" +:+ to_Tag (To (config s));
          Namespace := namespace;
          ResourceVersion := "" |};
     Tag := Some
       {| tag_Name := "";
          Annotations := ∅;
          From := Some
            {| ref_Kind := "ImageStreamImage";
               ref_Name := PipelineImageStream +:+ "@" +:+ fromImage;
               ref_Namespace := job_Namespace (jobSpec s);
               ref_UID := "";
               ref_APIVersion := "";
               ref_ResourceVersion := "";
               ref_FieldPath := "" |};
          Reference := false;
          Generation := None;
          ImportPolicy := mkTagImportPolicy false false;
          ReferencePolicy := {| policy_Type := LocalTagReferencePolicy |} |};
     ist_Image := zeroImage |}.

(** [Inputs] reads no field of its receiver. *)
Definition Inputs (ctx : Context) (dry : bool)
    : Prog (option InputDefinition * option error) :=
  Ret (None, None).

(** One attempt of the update: the closure given to
    [retry.RetryOnConflict], over the variable [ist] it assigns to. *)
Definition update_attempt (toNamespace : string) (ist : ImageStreamTag)
    : Prog (ImageStreamTag * option error) :=
  got <- call (IstGet (Namespace (ist_ObjectMeta ist)) (Name (ist_ObjectMeta ist))) ;;
  match got with
  | inr err => Ret (ist, Some err)
  | inl existingIst =>
      let ist := set_ResourceVersion ist (ResourceVersion (ist_ObjectMeta existingIst)) in
      updated <- call (IstUpdate toNamespace ist) ;;
      match updated with
      | inr err => Ret (ist, Some err)
      | inl _ => Ret (ist, None)
      end
  end.

Definition Run (ctx : Context) (dry : bool) : Prog (option error) :=
  let toNamespace := namespace in
  (if String.eqb (cfg_From (config s)) (to_Tag (To (config s)))
      && String.eqb toNamespace (job_Namespace (jobSpec s))
      && String.eqb (to_Name (To (config s))) StableImageStream
   then call (LogPrintf ("Tagging " +:+ cfg_From (config s) +:+ " into "
                         +:+ to_Name (To (config s))))
   else call (LogPrintf ("Tagging " +:+ cfg_From (config s) +:+ " into "
                         +:+ toNamespace +:+ "/" +:+ to_Name (To (config s))
                         +:+ ":" +:+ to_Tag (To (config s))))) ;;;
  resolved <-
    (if negb dry then
       from <- call (IstGet (job_Namespace (jobSpec s))
                            (PipelineImageStream +:+ ":" +:+ cfg_From (config s))) ;;
       match from with
       | inr err => Ret (inr (Errorf "could not resolve base image" err))
       | inl from => Ret (inl (Name (image_ObjectMeta (ist_Image from))))
       end
     else Ret (inl "dry-fake")) ;;
  match resolved with
  | inr err => Ret (Some err)
  | inl fromImage =>
      let ist := imageStreamTag fromImage in
      if dry then
        match MarshalIndent ist with
        | inr err => Ret (Some (Errorf "failed to marshal imagestreamtag" err))
        | inl istJSON =>
            call (FmtPrintf (istJSON +:+ String "010"%char EmptyString)) ;;;
            Ret None
        end
      else
        (* Create if not exists, update if it does *)
        created <- call (IstCreate toNamespace ist) ;;
        match created with
        | inl _ => Ret None
        | inr err =>
            if IsAlreadyExists err then
              r <- RetryOnConflict DefaultRetry (update_attempt toNamespace) ist ;;
              match snd r with
              | Some err => Ret (Some (Errorf "could not update output imagestreamtag" err))
              | None => Ret None
              end
            else Ret (Some (Errorf "could not create output imagestreamtag" err))
        end
  end.

Definition Done : Prog (bool * option error) :=
  let toNamespace := namespace in
  call (LogPrintf ("Checking for existence of " +:+ toNamespace +:+ "/"
                   +:+ to_Name (To (config s)) +:+ ":" +:+ to_Tag (To (config s)))) ;;;
  got <- call (IstGet toNamespace
                      (to_Name (To (config s)) +:+ ":" +:+ to_Tag (To (config s)))) ;;
  match got with
  | inr err =>
      if IsNotFound err then Ret (false, None)
      else Ret (false, Some (Errorf "could not retrieve output imagestreamtag" err))
  | inl ist =>
      from <- call (IstGet (job_Namespace (jobSpec s))
                           (PipelineImageStream +:+ ":" +:+ cfg_From (config s))) ;;
      match from with
      | inr err => Ret (false, Some (Errorf "could not resolve base image" err))
      | inl from =>
          let desiredIst := imageStreamTag (Name (image_ObjectMeta (ist_Image from))) in
          (* if a tag already exists but doesn't match what we're looking
             for we're not done *)
          Ret (Semantic_DeepEqual (Tag ist) (Tag desiredIst), None)
      end
  end.

Definition Requires : list StepLink :=
  [InternalImageLink (cfg_From (config s)); ReleaseImagesLink].

Definition Creates : list StepLink :=
  if (0 <? String.length (As (To (config s))))%nat
  then [ExternalImageLink (To (config s)); InternalImageLink (As (To (config s)))]
  else [ExternalImageLink (To (config s))].

(** The function stored in the parameter map by [Provides]. *)
Definition image_parameter : Provider :=
  got <- call (IsGet namespace (to_Name (To (config s)))) ;;
  match got with
  | inr err => Ret ("", Some (Errorf "could not retrieve output imagestream" err))
  | inl is_ =>
      if (0 <? String.length (PublicDockerImageRepository (Status is_)))%nat then
        Ret (PublicDockerImageRepository (Status is_) +:+ ":" +:+ to_Tag (To (config s)), None)
      else if (0 <? String.length (DockerImageRepository (Status is_)))%nat then
        Ret (DockerImageRepository (Status is_) +:+ ":" +:+ to_Tag (To (config s)), None)
      else
        Ret ("", Some (errorString ("image stream " +:+ As (To (config s))
                                    +:+ " has no accessible image registry value")))
  end.

Definition Provides : gmap string Provider * option StepLink :=
  if (String.length (As (To (config s))) =? 0)%nat then (∅, None)
  else
    ({[ "IMAGE_" +:+ ToUpper (replace_dash (As (To (config s)))) := image_parameter ]},
     Some (ExternalImageLink (To (config s)))).

Definition step_Name : string :=
  if (String.length (As (To (config s))) =? 0)%nat
  then "[output:" +:+ to_Name (To (config s)) +:+ ":" +:+ to_Tag (To (config s)) +:+ "]"
  else As (To (config s)).

Definition Description : string :=
  if (String.length (As (To (config s))) =? 0)%nat
  then "Tag the image " +:+ cfg_From (config s) +:+ " into the image stream tag "
       +:+ to_Name (To (config s)) +:+ ":" +:+ to_Tag (To (config s))
  else "Tag the image " +:+ cfg_From (config s) +:+ " into the stable image stream".
End Step.

(** [OutputImageTagStep]: the constructor.  The two clients it stores are
    the store a program is later run against. *)
Definition OutputImageTagStep (config : OutputImageTagStepConfiguration)
    (jobSpec : JobSpec) : outputImageTagStep :=
  mkOutputImageTagStep config jobSpec.

(** ** A store in memory, and the fixtures of the examples *)

Record Store : Type := mkStore {
  tags : gmap (string * string) ImageStreamTag;
  streams : gmap (string * string) ImageStream
}.

(** A store that keeps what it is given: a fetch of a missing resource is
    [NotFound], a create of a present one is [AlreadyExists], and an update
    whose concurrency token is not the stored one is a [Conflict]. *)
Definition memory_client : Client Store :=
  {| ImageStreamTags_Get := fun ns name st =>
       match tags st !! (ns, name) with
       | Some ist => (inl ist, st)
       | None => (inr (StatusError StatusReasonNotFound
                         ("imagestreamtag " +:+ name +:+ " not found")), st)
       end;
     ImageStreamTags_Create := fun ns ist st =>
       match tags st !! (ns, Name (ist_ObjectMeta ist)) with
       | Some _ => (inr (StatusError StatusReasonAlreadyExists
                           ("imagestreamtag " +:+ Name (ist_ObjectMeta ist)
                            +:+ " already exists")), st)
       | None => (inl ist,
                  mkStore (<[(ns, Name (ist_ObjectMeta ist)) := ist]> (tags st)) (streams st))
       end;
     ImageStreamTags_Update := fun ns ist st =>
       match tags st !! (ns, Name (ist_ObjectMeta ist)) with
       | None => (inr (StatusError StatusReasonNotFound
                         ("imagestreamtag " +:+ Name (ist_ObjectMeta ist)
                          +:+ " not found")), st)
       | Some old =>
           if String.eqb (ResourceVersion (ist_ObjectMeta old))
                         (ResourceVersion (ist_ObjectMeta ist))
           then (inl ist,
                 mkStore (<[(ns, Name (ist_ObjectMeta ist)) := ist]> (tags st)) (streams st))
           else (inr (StatusError StatusReasonConflict
                        "the object has been modified"), st)
       end;
     ImageStreams_Get := fun ns name st =>
       match streams st !! (ns, name) with
       | Some is_ => (inl is_, st)
       | None => (inr (StatusError StatusReasonNotFound
                         ("imagestream " +:+ name +:+ " not found")), st)
       end |}.

(** A store under contention: the tag exists, and the next [n] updates
    lose against another writer; [n] is the state. *)
Definition contended_client (existing : ImageStreamTag) : Client nat :=
  {| ImageStreamTags_Get := fun _ _ n => (inl existing, n);
     ImageStreamTags_Create := fun _ _ n =>
       (inr (StatusError StatusReasonAlreadyExists "already exists"), n);
     ImageStreamTags_Update := fun _ ist n =>
       match n with
       | O => (inl ist, O)
       | Datatypes.S n' =>
           (inr (StatusError StatusReasonConflict "the object has been modified"), n')
       end;
     ImageStreams_Get := fun _ _ n =>
       (inr (StatusError StatusReasonNotFound "not found"), n) |}.

(** A store whose tag exists and where every update loses. *)
Definition losing_client (existing : ImageStreamTag) : Client unit :=
  {| ImageStreamTags_Get := fun _ _ u => (inl existing, u);
     ImageStreamTags_Create := fun _ _ u =>
       (inr (StatusError StatusReasonAlreadyExists "already exists"), u);
     ImageStreamTags_Update := fun _ _ u =>
       (inr (StatusError StatusReasonConflict "the object has been modified"), u);
     ImageStreams_Get := fun _ _ u =>
       (inr (StatusError StatusReasonNotFound "not found"), u) |}.

(** A store that refuses every create for a reason of its own. *)
Definition forbidding_client (existing : ImageStreamTag) : Client unit :=
  {| ImageStreamTags_Get := fun _ _ u => (inl existing, u);
     ImageStreamTags_Create := fun _ _ u =>
       (inr (StatusError StatusReasonUnknown "forbidden"), u);
     ImageStreamTags_Update := fun _ ist u => (inl ist, u);
     ImageStreams_Get := fun _ _ u =>
       (inr (StatusError StatusReasonNotFound "not found"), u) |}.

(** The values of the imported constants, a rendering that shows the name
    of the resource and of its source, and five attempts ten milliseconds
    apart. *)
Definition sample_imports : Imports :=
  {| Context := unit;
     PipelineImageStream := "pipeline";
     StableImageStream := "stable";
     LocalTagReferencePolicy := "Local";
     MarshalIndent := fun ist =>
       inl ("{ name: " +:+ Name (ist_ObjectMeta ist) +:+ ", from: "
            +:+ match Tag ist with
                | Some t => match From t with Some r => ref_Name r | None => "" end
                | None => ""
                end +:+ " }");
     DefaultRetry := mkBackoff 5 (fun _ => 10%Z) |}.

(** The step of the end-to-end scenario: the pipeline image [builder] is
    tagged into [stable:latest] of the namespace of the run. *)
Definition sample_step : outputImageTagStep :=
  OutputImageTagStep
    (mkOutputImageTagStepConfiguration "builder"
       (mkImageStreamTagReference "" "stable" "latest" ""))
    (mkJobSpec "ci-op-1").

(** The same step, exporting its image as [test-bin] into a namespace of
    its own. *)
Definition exporting_step : outputImageTagStep :=
  OutputImageTagStep
    (mkOutputImageTagStepConfiguration "builder"
       (mkImageStreamTagReference "release" "stable" "latest" "test-bin"))
    (mkJobSpec "ci-op-1").

(** The pipeline tag [pipeline:builder], backed by the image [image]. *)
Definition builder_tag (image : string) : ImageStreamTag :=
  mkImageStreamTag (mkObjectMeta "pipeline:builder" "ci-op-1" "3") None
    (mkImage (mkObjectMeta image "" "")).

Definition empty_store : Store := mkStore ∅ ∅.

(** A store that holds the pipeline tag only. *)
Definition built_store (image : string) : Store :=
  mkStore {[ ("ci-op-1", "pipeline:builder") := builder_tag image ]} ∅.

(** The target tag as the store returns it once it points at [image]:
    named, versioned and with the image filled in by the store. *)
Definition stable_tag (image : string) : ImageStreamTag :=
  mkImageStreamTag (mkObjectMeta "stable:latest" "ci-op-1" "8")
    (Tag (@imageStreamTag sample_imports sample_step image))
    (mkImage (mkObjectMeta image "" "")).

(** A store where the target points at [tagged] and the pipeline tag is
    backed by [built]. *)
Definition tagged_store (tagged built : string) : Store :=
  mkStore (<[ ("ci-op-1", "stable:latest") := stable_tag tagged ]>
             {[ ("ci-op-1", "pipeline:builder") := builder_tag built ]}) ∅.

Definition stream (internal external : string) : ImageStream :=
  mkImageStream (mkObjectMeta "stable" "release" "1")
    (mkImageStreamStatus internal external).

Definition stream_store (internal external : string) : Store :=
  mkStore ∅ {[ ("release", "stable") := stream internal external ]}.

(** The same imports with a marshaller that fails. *)
Definition unmarshalable_imports : Imports :=
  {| Context := unit;
     PipelineImageStream := "pipeline";
     StableImageStream := "stable";
     LocalTagReferencePolicy := "Local";
     MarshalIndent := fun _ => inr (errorString "json: unsupported value");
     DefaultRetry := mkBackoff 5 (fun _ => 10%Z) |}.

(** A step that exports its image under the name of the pipeline image
    it tags. *)
Definition renaming_step : outputImageTagStep :=
  OutputImageTagStep
    (mkOutputImageTagStepConfiguration "builder"
       (mkImageStreamTagReference "" "stable" "latest" "builder"))
    (mkJobSpec "ci-op-1").

(** A run of lost updates: from the state [st], one attempt after the
    other fetches the stored tag [name] of the namespace [ns] and sends as
    update the resource [desired] under the resource version of what it
    fetched, and the store answers each update with a conflict.  The list
    holds, attempt by attempt, the tag that was fetched and the conflict
    that was answered; the last state is the one the store is left in. *)
Inductive lost_updates {St : Type} (c : Client St) (ns name : string)
    (desired : ImageStreamTag) : St -> list (ImageStreamTag * error) -> St -> Prop :=
| lost_none (st : St) : lost_updates c ns name desired st [] st
| lost_one (st st1 st2 st' : St) (existing : ImageStreamTag) (conflict : error)
      (rest : list (ImageStreamTag * error)) :
    ImageStreamTags_Get c ns name st = (inl existing, st1) ->
    ImageStreamTags_Update c ns
      (mkImageStreamTag
         (mkObjectMeta (Name (ist_ObjectMeta desired)) (Namespace (ist_ObjectMeta desired))
                       (ResourceVersion (ist_ObjectMeta existing)))
         (Tag desired) (ist_Image desired)) st1 = (inr conflict, st2) ->
    IsConflict conflict = true ->
    lost_updates c ns name desired st2 rest st' ->
    lost_updates c ns name desired st ((existing, conflict) :: rest) st'.

(** The operations of such a run, the first attempt being the attempt
    number [i] of the retry loop: a pause before every attempt but the
    attempt 0, the fetch, and the update. *)
Fixpoint lost_trace (delay : nat -> Z) (ns name : string) (desired : ImageStreamTag)
    (i : nat) (script : list (ImageStreamTag * error)) : list Op :=
  match script with
  | [] => []
  | (existing, _) :: rest =>
      (match i with O => [] | _ => [Sleep (delay i)] end)
      ++ [IstGet ns name;
          IstUpdate ns
            (mkImageStreamTag
               (mkObjectMeta (Name (ist_ObjectMeta desired))
                             (Namespace (ist_ObjectMeta desired))
                             (ResourceVersion (ist_ObjectMeta existing)))
               (Tag desired) (ist_Image desired))]
      ++ lost_trace delay ns name desired (Datatypes.S i) rest
  end.

(** The last conflict and the last resource version seen after such a
    run, given the ones before it. *)
Definition last_conflict (last : option error) (script : list (ImageStreamTag * error))
    : option error :=
  fold_left (fun _ attempt => Some (snd attempt)) script last.

Definition last_version (rv : string) (script : list (ImageStreamTag * error)) : string :=
  fold_left (fun _ attempt => ResourceVersion (ist_ObjectMeta (fst attempt))) script rv.

(** The target tag as a server may return it, the reference to its source
    completed with an API version. *)
Definition served_tag (image : string) : ImageStreamTag :=
  mkImageStreamTag (mkObjectMeta "stable:latest" "ci-op-1" "8")
    (Some {| tag_Name := "";
             Annotations := ∅;
             From := Some (mkObjectReference "ImageStreamImage" ("pipeline@" +:+ image)
                             "ci-op-1" "" "image.openshift.io/v1" "" "");
             Reference := false;
             Generation := None;
             ImportPolicy := mkTagImportPolicy false false;
             ReferencePolicy := mkTagReferencePolicy "Local" |})
    (mkImage (mkObjectMeta image "" "")).

Definition served_store (image : string) : Store :=
  mkStore (<[ ("ci-op-1", "stable:latest") := served_tag image ]>
             {[ ("ci-op-1", "pipeline:builder") := builder_tag image ]}) ∅.

(** The resource an operation writes to the store, if it writes one. *)
Definition written (o : Op) : option ImageStreamTag :=
  match o with
  | IstCreate _ ist | IstUpdate _ ist => Some ist
  | _ => None
  end.

(** The ASCII lower-case letters, and the bytes of the ASCII range, on
    which [ToUpper] above is [strings.ToUpper]. *)
Definition is_lower (c : ascii) : bool :=
  (97 <=? nat_of_ascii c)%nat && (nat_of_ascii c <=? 122)%nat.

Definition is_ascii (c : ascii) : bool := (nat_of_ascii c <? 128)%nat.

(** A store that cannot be reached. *)
Definition broken_client : Client unit :=
  {| ImageStreamTags_Get := fun _ _ u =>
       (inr (StatusError StatusReasonUnknown "connection refused"), u);
     ImageStreamTags_Create := fun _ _ u =>
       (inr (StatusError StatusReasonUnknown "connection refused"), u);
     ImageStreamTags_Update := fun _ _ u =>
       (inr (StatusError StatusReasonUnknown "connection refused"), u);
     ImageStreams_Get := fun _ _ u =>
       (inr (StatusError StatusReasonUnknown "connection refused"), u) |}.

(** A store whose tag exists and which rejects every update for a reason
    of its own. *)
Definition rejecting_client (existing : ImageStreamTag) : Client unit :=
  {| ImageStreamTags_Get := fun _ _ u => (inl existing, u);
     ImageStreamTags_Create := fun _ _ u =>
       (inr (StatusError StatusReasonAlreadyExists "already exists"), u);
     ImageStreamTags_Update := fun _ _ u =>
       (inr (StatusError StatusReasonUnknown "invalid"), u);
     ImageStreams_Get := fun _ _ u =>
       (inr (StatusError StatusReasonNotFound "not found"), u) |}.

(** A store that answers its first fetch and from which every tag is gone
    afterwards, although a create is still refused; the state counts the
    fetches. *)
Definition vanishing_client (existing : ImageStreamTag) : Client nat :=
  {| ImageStreamTags_Get := fun _ _ n =>
       match n with
       | O => (inl existing, 1)
       | _ => (inr (StatusError StatusReasonNotFound "not found"), Datatypes.S n)
       end;
     ImageStreamTags_Create := fun _ _ n =>
       (inr (StatusError StatusReasonAlreadyExists "already exists"), n);
     ImageStreamTags_Update := fun _ ist n => (inl ist, n);
     ImageStreams_Get := fun _ _ n =>
       (inr (StatusError StatusReasonNotFound "not found"), n) |}.

(** A store that holds the target tag and no pipeline tag. *)
Definition orphan_store : Store :=
  mkStore {[ ("ci-op-1", "stable:latest") := stable_tag "sha256:aaa" ]} ∅.

(** The resource a remote operation of the step may address: the target
    tag (or, for the parameter, the target image stream) in the effective
    namespace of the step, or, for a fetch only, the source tag of the
    pipeline in the namespace of the run. *)
Definition addresses `{Imports} (s : outputImageTagStep) (o : Op) : Prop :=
  let target := to_Name (To (config s)) +:+ ":" +:+ to_Tag (To (config s)) in
  match o with
  | LogPrintf _ | FmtPrintf _ | Sleep _ => True
  | IstGet ns name =>
      (ns = namespace s /\ name = target)
      \/ (ns = job_Namespace (jobSpec s)
          /\ name = PipelineImageStream +:+ ":" +:+ cfg_From (config s))
  | IstCreate ns ist | IstUpdate ns ist =>
      ns = namespace s
      /\ Namespace (ist_ObjectMeta ist) = namespace s
      /\ Name (ist_ObjectMeta ist) = target
  | IsGet ns name => ns = namespace s /\ name = to_Name (To (config s))
  end.

(** * Properties *)

Local Open Scope list_scope.

Lemma Outcome_eta {R St : Type} (o : Outcome R St) :
  o = mkOutcome (result o) (final o) (trace o).
Proof. by destruct o. Qed.

Lemma exec_bind {A B St : Type} (c : Client St) (p : Prog A) (f : A -> Prog B) (st : St) :
  exec c (bind p f) st =
  mkOutcome (result (exec c (f (result (exec c p st))) (final (exec c p st))))
            (final (exec c (f (result (exec c p st))) (final (exec c p st))))
            (trace (exec c p st)
             ++ trace (exec c (f (result (exec c p st))) (final (exec c p st)))).
Proof.
  revert st. induction p as [a | o k IH]; intros st; cbn [bind exec result final trace].
  - apply Outcome_eta.
  - rewrite IH. reflexivity.
Qed.

Lemma length_zero_string (x : string) : (String.length x =? 0)%nat = bool_decide (x = "").
Proof. by destruct x. Qed.

Lemma length_pos_string (x : string) : (0 <? String.length x)%nat = negb (bool_decide (x = "")).
Proof. by destruct x. Qed.

Lemma append_inj_r (p a b : string) : p +:+ a = p +:+ b -> a = b.
Proof.
  induction p as [| ch p IH]; cbn; [done |].
  intros E. injection E as E. by apply IH.
Qed.

Lemma exec_log_if {R St : Type} (c : Client St) (b : bool) (l1 l2 : string)
    (f : unit -> Prog R) (st : St) :
  exec c (bind (if b then call (LogPrintf l1) else call (LogPrintf l2)) f) st =
  mkOutcome (result (exec c (f tt) st)) (final (exec c (f tt) st))
            (LogPrintf (if b then l1 else l2) :: trace (exec c (f tt) st)).
Proof. by destruct b. Qed.

Lemma updates_app (a b : list Op) : updates (a ++ b) = updates a + updates b.
Proof. unfold updates. by rewrite List.filter_app, length_app. Qed.

(** One turn of the retry loop. *)
Lemma exec_retry_loop {S St : Type} (c : Client St) (delay : nat -> Z)
    (fn : S -> Prog (S * option error)) (n i : nat) (last : option error)
    (x : S) (st : St) :
  exec c (RetryOnConflict_loop delay fn (Datatypes.S n) i last x) st =
  let pause := match i with O => [] | _ => [Sleep (delay i)] end in
  let o1 := exec c (fn x) st in
  match snd (result o1) with
  | None => mkOutcome (fst (result o1), None) (final o1) (pause ++ trace o1)
  | Some e =>
      if IsConflict e then
        let o2 := exec c (RetryOnConflict_loop delay fn n (Datatypes.S i) (Some e)
                            (fst (result o1))) (final o1) in
        mkOutcome (result o2) (final o2) (pause ++ trace o1 ++ trace o2)
      else mkOutcome (fst (result o1), Some e) (final o1) (pause ++ trace o1)
  end.
Proof.
  cbn [RetryOnConflict_loop]. rewrite !exec_bind.
  assert (forall st0 : St,
             exec c (match i with O => Ret tt | _ => call (Sleep (delay i)) end) st0
             = mkOutcome tt st0 (match i with O => [] | _ => [Sleep (delay i)] end)) as ->
    by (intros; by destruct i).
  cbn [result final trace].
  destruct (result (exec c (fn x) st)) as [x' [e |]]; cbn [fst snd].
  - destruct (IsConflict e); cbn [exec result final trace]; by rewrite ?app_nil_r.
  - cbn [exec result final trace]. by rewrite app_nil_r.
Qed.

(** One attempt of the update, by the answers of the store. *)
Lemma exec_update_attempt {St : Type} (c : Client St) (ns : string)
    (ist : ImageStreamTag) (st : St) :
  exec c (update_attempt ns ist) st =
  let get := IstGet (Namespace (ist_ObjectMeta ist)) (Name (ist_ObjectMeta ist)) in
  match handle c get st with
  | (inr err, st1) => mkOutcome (ist, Some err) st1 [get]
  | (inl existingIst, st1) =>
      let ist' := set_ResourceVersion ist (ResourceVersion (ist_ObjectMeta existingIst)) in
      match handle c (IstUpdate ns ist') st1 with
      | (inr err, st2) => mkOutcome (ist', Some err) st2 [get; IstUpdate ns ist']
      | (inl _, st2) => mkOutcome (ist', None) st2 [get; IstUpdate ns ist']
      end
  end.
Proof.
  unfold update_attempt. cbn [exec bind call handle result trace final fst snd].
  destruct (ImageStreamTags_Get c _ _ st) as [[existingIst | err] st1];
    cbn [exec bind call handle result trace final fst snd]; [| reflexivity].
  by destruct (ImageStreamTags_Update c _ _ st1) as [[? | err] st2].
Qed.

(** The retry loop attempts no more updates than its bound. *)
Lemma retry_updates_bounded {St : Type} (c : Client St) (delay : nat -> Z)
    (ns : string) (n : nat) :
  forall (i : nat) (last : option error) (ist : ImageStreamTag) (st : St),
    updates (trace (exec c (RetryOnConflict_loop delay (update_attempt ns) n i last ist) st))
    <= n.
Proof.
  induction n as [| n IH]; intros i last ist st; [cbn; lia |].
  rewrite exec_retry_loop. cbv zeta.
  assert (updates (match i with O => [] | _ => [Sleep (delay i)] end) = 0) as Hp
    by (by destruct i).
  assert (updates (trace (exec c (update_attempt ns ist) st)) <= 1) as H1.
  { rewrite exec_update_attempt. cbv zeta.
    destruct (handle c _ st) as [[ex | e] st1]; [| cbn; lia].
    destruct (handle c _ st1) as [[? | e] st2]; cbn; lia. }
  destruct (snd (result (exec c (update_attempt ns ist) st))) as [e |].
  - destruct (IsConflict e); cbn [trace]; rewrite !updates_app, Hp.
    + specialize (IH (Datatypes.S i) (Some e)
                     (fst (result (exec c (update_attempt ns ist) st)))
                     (final (exec c (update_attempt ns ist) st))). lia.
    + lia.
  - cbn [trace]. rewrite updates_app, Hp. lia.
Qed.

(** Against a store whose fetches succeed and whose updates all lose to
    another writer, the loop uses up its bound and ends on a conflict. *)
Lemma retry_exhausted {St : Type} (c : Client St) (delay : nat -> Z) (ns : string)
    (Hget : forall ns' name st, exists x st',
        ImageStreamTags_Get c ns' name st = (inl x, st'))
    (Hupd : forall ns' ist st, exists e st',
        ImageStreamTags_Update c ns' ist st = (inr e, st') /\ IsConflict e = true)
    (n : nat) :
  forall (i : nat) (last : option error) (ist : ImageStreamTag) (st : St),
    (forall e, last = Some e -> IsConflict e = true) ->
    let out := exec c (RetryOnConflict_loop delay (update_attempt ns) n i last ist) st in
    updates (trace out) = n
    /\ match snd (result out) with
       | Some e => IsConflict e = true
       | None => last = None /\ n = 0
       end.
Proof.
  induction n as [| n IH]; intros i last ist st Hlast; cbv zeta.
  - cbn. split; [done |]. destruct last as [e |]; [by apply Hlast | done].
  - rewrite exec_retry_loop, exec_update_attempt. cbv zeta.
    cbn [handle].
    destruct (Hget (Namespace (ist_ObjectMeta ist)) (Name (ist_ObjectMeta ist)) st)
      as (x & st1 & ->).
    destruct (Hupd ns (set_ResourceVersion ist (ResourceVersion (ist_ObjectMeta x))) st1)
      as (e & st2 & -> & He).
    cbn [result final trace fst snd]. rewrite He. cbn [result final trace].
    destruct (IH (Datatypes.S i) (Some e)
                 (set_ResourceVersion ist (ResourceVersion (ist_ObjectMeta x))) st2)
      as [Hn Hr]; [by intros ? [= <-] |].
    split.
    + rewrite !updates_app, Hn. destruct i; cbn; lia.
    + destruct (snd (result _)) as [e' |]; [done | by destruct Hr].
Qed.

(** The retry loop through a run of lost updates. *)
Lemma exec_retry_lost {St : Type} (c : Client St) (delay : nat -> Z) (ns name : string)
    (desired : ImageStreamTag) :
  Namespace (ist_ObjectMeta desired) = ns ->
  Name (ist_ObjectMeta desired) = name ->
  forall (script : list (ImageStreamTag * error)) (st st' : St),
    lost_updates c ns name desired st script st' ->
    forall (n i : nat) (last : option error) (rv : string),
      exec c (RetryOnConflict_loop delay (update_attempt ns) (length script + n) i last
                (set_ResourceVersion desired rv)) st =
      mkOutcome
        (result (exec c (RetryOnConflict_loop delay (update_attempt ns) n
                           (i + length script) (last_conflict last script)
                           (set_ResourceVersion desired (last_version rv script))) st'))
        (final (exec c (RetryOnConflict_loop delay (update_attempt ns) n
                          (i + length script) (last_conflict last script)
                          (set_ResourceVersion desired (last_version rv script))) st'))
        (lost_trace delay ns name desired i script
         ++ trace (exec c (RetryOnConflict_loop delay (update_attempt ns) n
                             (i + length script) (last_conflict last script)
                             (set_ResourceVersion desired (last_version rv script))) st')).
Proof.
  intros Hns Hname script st st' Hlost.
  induction Hlost as [st | st st1 st2 st' existing conflict rest Hget Hupd Hc Hlost IH];
    intros n i last rv.
  - cbn [length lost_trace last_conflict last_version fold_left plus app].
    rewrite Nat.add_0_r. apply Outcome_eta.
  - cbn [length plus]. rewrite exec_retry_loop, exec_update_attempt. cbv zeta.
    change (Namespace (ist_ObjectMeta (set_ResourceVersion desired rv)))
      with (Namespace (ist_ObjectMeta desired)).
    change (Name (ist_ObjectMeta (set_ResourceVersion desired rv)))
      with (Name (ist_ObjectMeta desired)).
    rewrite Hns, Hname. cbn [handle]. rewrite Hget.
    change (set_ResourceVersion (set_ResourceVersion desired rv)
              (ResourceVersion (ist_ObjectMeta existing)))
      with (mkImageStreamTag
              (mkObjectMeta (Name (ist_ObjectMeta desired))
                            (Namespace (ist_ObjectMeta desired))
                            (ResourceVersion (ist_ObjectMeta existing)))
              (Tag desired) (ist_Image desired)).
    rewrite Hupd. cbn [result final trace fst snd]. rewrite Hc.
    change (mkImageStreamTag
              (mkObjectMeta (Name (ist_ObjectMeta desired))
                            (Namespace (ist_ObjectMeta desired))
                            (ResourceVersion (ist_ObjectMeta existing)))
              (Tag desired) (ist_Image desired))
      with (set_ResourceVersion desired (ResourceVersion (ist_ObjectMeta existing))).
    rewrite (IH n (Datatypes.S i) (Some conflict)
                (ResourceVersion (ist_ObjectMeta existing))).
    cbn [result final trace]. rewrite Nat.add_succ_comm.
    cbn [lost_trace]. rewrite <- !app_assoc. reflexivity.
Qed.

Ltac addressed :=
  repeat (apply List.Forall_cons;
          [cbn; first [exact I | by left | by right | by repeat split] |]);
  try apply List.Forall_nil.

Section Claims.
Context `{Imports}.
Variable s : outputImageTagStep.

Lemma namespace_spec :
  namespace s =
  if bool_decide (to_Namespace (To (config s)) = "")
  then job_Namespace (jobSpec s)
  else to_Namespace (To (config s)).
Proof.
  unfold namespace. rewrite length_zero_string.
  by destruct (bool_decide _).
Qed.

(** C10.  For every context and every value of the dry-run flag,
    [Inputs] returns [(nil, nil)]; run against any store it performs no
    operation at all and leaves the store as it was. *)
Theorem Inputs_returns_nil (ctx : Context) (dry : bool)
    (St : Type) (c : Client St) (st : St) :
  Inputs ctx dry = Ret (None, None)
  /\ exec c (Inputs ctx dry) st = mkOutcome (None, None) st [].
Proof. split; reflexivity. Qed.

(** C8.  When the field [As] of the target is absent (the empty string),
    [Provides] returns the empty parameter map, and no link. *)
Theorem Provides_nothing_without_As :
  As (To (config s)) = "" -> Provides s = (∅, None).
Proof. intros E. unfold Provides. by rewrite E. Qed.

(** C7.  The function that [Provides] exports, once the image stream is
    fetched: the public repository is used when it is set, else the
    internal one when it is set, and with neither the result is an error
    that names the exported image. *)
Theorem provider_prefers_public (name : string) (p : Provider)
    (St : Type) (c : Client St) (st st' : St) (is_ : ImageStream) :
  fst (Provides s) !! name = Some p ->
  ImageStreams_Get c (namespace s) (to_Name (To (config s))) st = (inl is_, st') ->
  let out := exec c p st in
  trace out = [IsGet (namespace s) (to_Name (To (config s)))]
  /\ (PublicDockerImageRepository (Status is_) <> "" ->
      result out =
      (PublicDockerImageRepository (Status is_) +:+ ":" +:+ to_Tag (To (config s)), None))
  /\ (PublicDockerImageRepository (Status is_) = "" ->
      DockerImageRepository (Status is_) <> "" ->
      result out =
      (DockerImageRepository (Status is_) +:+ ":" +:+ to_Tag (To (config s)), None))
  /\ (PublicDockerImageRepository (Status is_) = "" ->
      DockerImageRepository (Status is_) = "" ->
      result out =
      ("", Some (errorString ("image stream " +:+ As (To (config s))
                              +:+ " has no accessible image registry value")))).
Proof.
  intros Hp Hget out.
  assert (p = image_parameter s) as ->.
  { unfold Provides in Hp. destruct (String.length _ =? 0)%nat; cbn in Hp.
    - by rewrite lookup_empty in Hp.
    - apply lookup_singleton_Some in Hp as [_ Hp]. done. }
  subst out. unfold image_parameter.
  cbn [exec bind call handle result trace final]. rewrite Hget.
  cbn [fst snd]. rewrite !length_pos_string.
  repeat split.
  - by destruct (bool_decide _), (bool_decide _).
  - intros Hpub. rewrite bool_decide_eq_false_2 by done. done.
  - intros Hpub Hint. rewrite (bool_decide_eq_true_2 _ Hpub).
    rewrite bool_decide_eq_false_2 by done. done.
  - intros Hpub Hint. rewrite (bool_decide_eq_true_2 _ Hpub).
    rewrite (bool_decide_eq_true_2 _ Hint). done.
Qed.

(** The name under which the target tag is stored, and the source tag. *)
Local Abbreviation target := (to_Name (To (config s)) +:+ ":" +:+ to_Tag (To (config s))).
Local Abbreviation source := (PipelineImageStream +:+ ":" +:+ cfg_From (config s)).
Local Abbreviation checking :=
  (LogPrintf ("Checking for existence of " +:+ namespace s +:+ "/"
              +:+ to_Name (To (config s)) +:+ ":" +:+ to_Tag (To (config s)))).

(** C3.  When the fetch of the target tag answers [NotFound], [Done]
    returns [(false, nil)]; the fetch is its only remote call, so nothing
    is written and the store stays as the fetch left it. *)
Theorem Done_absent_is_not_done (St : Type) (c : Client St) (st st' : St) (err : error) :
  ImageStreamTags_Get c (namespace s) target st = (inr err, st') ->
  IsNotFound err = true ->
  let out := exec c (Done s) st in
  result out = (false, None)
  /\ trace out = [checking; IstGet (namespace s) target]
  /\ Forall (fun o => is_mutation o = false) (trace out)
  /\ final out = st'.
Proof.
  intros Hget Hnf out. subst out. unfold Done.
  cbn [exec bind call handle result trace final fst snd].
  rewrite Hget. cbn [fst snd]. rewrite Hnf.
  cbn [exec result trace final].
  split; [reflexivity | split; [reflexivity | split; [repeat constructor | reflexivity]]].
Qed.

(** C4.  When the target tag exists and the source resolves, [Done]
    answers by comparing the field [Tag] of the stored resource with the
    one of the desired resource: [(true, nil)] when they are equal,
    whatever the metadata (the resource version among them) and the
    image of the stored resource, and [(false, nil)] when they differ;
    never an error. *)
Theorem Done_compares_owned_fields (St : Type) (c : Client St) (st st1 st2 : St)
    (actual from : ImageStreamTag) :
  ImageStreamTags_Get c (namespace s) target st = (inl actual, st1) ->
  ImageStreamTags_Get c (job_Namespace (jobSpec s)) source st1 = (inl from, st2) ->
  let desired := imageStreamTag s (Name (image_ObjectMeta (ist_Image from))) in
  let out := exec c (Done s) st in
  (Tag actual = Tag desired -> result out = (true, None))
  /\ (forall (rv : string) (image : Image),
        actual = mkImageStreamTag
                   (mkObjectMeta (Name (ist_ObjectMeta desired))
                                 (Namespace (ist_ObjectMeta desired)) rv)
                   (Tag desired) image ->
        result out = (true, None))
  /\ (Tag actual <> Tag desired -> result out = (false, None))
  /\ snd (result out) = None.
Proof.
  intros Hget Hsrc desired out. subst out. unfold Done.
  cbn [exec bind call handle result trace final fst snd].
  rewrite Hget. cbn [exec bind call handle result trace final fst snd].
  rewrite Hsrc. cbn [exec bind call handle result trace final fst snd].
  fold desired. unfold Semantic_DeepEqual.
  repeat split.
  - intros E. by rewrite bool_decide_eq_true_2.
  - intros rv image ->. by rewrite bool_decide_eq_true_2.
  - intros E. by rewrite bool_decide_eq_false_2.
Qed.

(** C5.  In dry-run mode [Run] performs no [Create] and no [Update]: the
    store is left in the state it was in, and when the desired resource,
    built on the placeholder image, marshals, it is printed and [Run]
    returns nil. *)
Theorem Run_dry_never_mutates (ctx : Context) (St : Type) (c : Client St) (st : St) :
  let out := exec c (Run s ctx true) st in
  Forall (fun o => is_mutation o = false) (trace out)
  /\ final out = st
  /\ (forall istJSON : string,
        MarshalIndent (imageStreamTag s "dry-fake") = inl istJSON ->
        result out = None
        /\ exists line : string,
             trace out = [LogPrintf line;
                          FmtPrintf (istJSON +:+ String "010"%char EmptyString)]).
Proof.
  intros out. subst out. unfold Run. rewrite exec_log_if.
  cbn [negb exec bind call handle result trace final fst snd].
  destruct (MarshalIndent (imageStreamTag s "dry-fake")) as [js | e] eqn:E;
    cbn [exec bind call handle result trace final fst snd].
  - split; [repeat constructor | split; [reflexivity |]].
    intros ? [= <-]. split; [reflexivity | by eexists].
  - split; [repeat constructor | split; [reflexivity | discriminate]].
Qed.

(** The line [Run] logs first. *)
Local Abbreviation tagging :=
  (LogPrintf
     (if String.eqb (cfg_From (config s)) (to_Tag (To (config s)))
         && String.eqb (namespace s) (job_Namespace (jobSpec s))
         && String.eqb (to_Name (To (config s))) StableImageStream
      then "Tagging " +:+ cfg_From (config s) +:+ " into " +:+ to_Name (To (config s))
      else "Tagging " +:+ cfg_From (config s) +:+ " into " +:+ namespace s +:+ "/"
           +:+ to_Name (To (config s)) +:+ ":" +:+ to_Tag (To (config s)))).

(** A run that is not dry and whose source does not resolve. *)
Lemma Run_unresolved (ctx : Context) (St : Type) (c : Client St) (st st1 : St)
    (err : error) :
  ImageStreamTags_Get c (job_Namespace (jobSpec s)) source st = (inr err, st1) ->
  exec c (Run s ctx false) st =
  mkOutcome (Some (Errorf "could not resolve base image" err)) st1
            [tagging; IstGet (job_Namespace (jobSpec s)) source].
Proof.
  intros Hsrc. unfold Run. rewrite exec_log_if.
  cbn [negb exec bind call handle result trace final fst snd].
  rewrite Hsrc. reflexivity.
Qed.

(** A run that is not dry, up to the answer to its create. *)
Lemma Run_resolved (ctx : Context) (St : Type) (c : Client St) (st st1 : St)
    (from : ImageStreamTag) :
  ImageStreamTags_Get c (job_Namespace (jobSpec s)) source st = (inl from, st1) ->
  let ist := imageStreamTag s (Name (image_ObjectMeta (ist_Image from))) in
  let created := ImageStreamTags_Create c (namespace s) ist st1 in
  let head := [tagging; IstGet (job_Namespace (jobSpec s)) source;
               IstCreate (namespace s) ist] in
  exec c (Run s ctx false) st =
  match fst created with
  | inl _ => mkOutcome None (snd created) head
  | inr err =>
      if IsAlreadyExists err then
        let retried := exec c (RetryOnConflict DefaultRetry (update_attempt (namespace s)) ist)
                            (snd created) in
        mkOutcome
          (match snd (result retried) with
           | Some err => Some (Errorf "could not update output imagestreamtag" err)
           | None => None
           end)
          (final retried) (head ++ trace retried)
      else mkOutcome (Some (Errorf "could not create output imagestreamtag" err))
                     (snd created) head
  end.
Proof.
  intros Hsrc ist created head. unfold Run. rewrite exec_log_if.
  cbn [negb exec bind call handle result trace final fst snd].
  rewrite Hsrc. cbn [exec bind call handle result trace final fst snd].
  fold ist. subst created.
  destruct (ImageStreamTags_Create c (namespace s) ist st1) as [[? | err] st2];
    cbn [fst snd]; [reflexivity |].
  destruct (IsAlreadyExists err); [| reflexivity].
  rewrite exec_bind. cbn [result final trace].
  destruct (snd (result _)) as [e |]; cbn [exec result final trace];
    by rewrite app_nil_r.
Qed.

(** C1.  A run that is not dry and whose create fails.  An error other
    than [AlreadyExists] ends the run with an error that names the create.
    On [AlreadyExists] the run enters the retry loop.  Every attempt of it,
    the first and each one that follows a lost update alike, comes after a
    pause (but for the first), fetches the stored tag and sends as update
    the desired resource under the resource version of the tag just
    fetched, with nothing else of that tag.  An update that succeeds ends
    the run with nil.  The updates attempted never exceed the bound of the
    retry policy; when the bound is used up by lost updates the run ends
    there with an error that names the update and wraps the last conflict. *)
Theorem Run_create_or_update (ctx : Context) (St : Type) (c : Client St)
    (st st1 st2 : St) (from : ImageStreamTag) (err : error) :
  0 < Steps DefaultRetry ->
  ImageStreamTags_Get c (job_Namespace (jobSpec s)) source st = (inl from, st1) ->
  let desired := imageStreamTag s (Name (image_ObjectMeta (ist_Image from))) in
  ImageStreamTags_Create c (namespace s) desired st1 = (inr err, st2) ->
  let out := exec c (Run s ctx false) st in
  let head := [tagging; IstGet (job_Namespace (jobSpec s)) source;
               IstCreate (namespace s) desired] in
  (IsAlreadyExists err = false ->
   result out = Some (errorString ("could not create output imagestreamtag: "
                                   +:+ Error err))
   /\ trace out = head)
  /\ (IsAlreadyExists err = true ->
      updates (trace out) <= Steps DefaultRetry
      /\ (forall (script : list (ImageStreamTag * error)) (st' : St),
            lost_updates c (namespace s) target desired st2 script st' ->
            length script < Steps DefaultRetry ->
            let before :=
              head ++ lost_trace (Delay DefaultRetry) (namespace s) target desired 0 script
              ++ match length script with
                 | O => []
                 | k => [Sleep (Delay DefaultRetry k)]
                 end in
            (exists rest : list Op,
                trace out = before ++ IstGet (namespace s) target :: rest)
            /\ (forall (existing : ImageStreamTag) (st3 : St),
                  ImageStreamTags_Get c (namespace s) target st' = (inl existing, st3) ->
                  let ist :=
                    mkImageStreamTag
                      (mkObjectMeta target (namespace s)
                                    (ResourceVersion (ist_ObjectMeta existing)))
                      (Tag desired) (ist_Image desired) in
                  let attempt := [IstGet (namespace s) target;
                                  IstUpdate (namespace s) ist] in
                  (exists rest : list Op, trace out = before ++ attempt ++ rest)
                  /\ (forall (updated : ImageStreamTag) (st4 : St),
                        ImageStreamTags_Update c (namespace s) ist st3 = (inl updated, st4) ->
                        result out = None
                        /\ trace out = before ++ attempt
                        /\ final out = st4)))
      /\ (forall (script : list (ImageStreamTag * error)) (existing : ImageStreamTag)
                 (conflict : error) (st' : St),
            lost_updates c (namespace s) target desired st2
                         (script ++ [(existing, conflict)]) st' ->
            length script + 1 = Steps DefaultRetry ->
            result out = Some (errorString ("could not update output imagestreamtag: "
                                            +:+ Error conflict))
            /\ trace out = head ++ lost_trace (Delay DefaultRetry) (namespace s) target
                                              desired 0 (script ++ [(existing, conflict)])
            /\ final out = st')
      /\ ((forall ns name st0, exists x st',
              ImageStreamTags_Get c ns name st0 = (inl x, st')) ->
          (forall ns ist st0, exists e st',
              ImageStreamTags_Update c ns ist st0 = (inr e, st')
              /\ IsConflict e = true) ->
          updates (trace out) = Steps DefaultRetry
          /\ exists conflict : error,
               IsConflict conflict = true
               /\ result out = Some (errorString ("could not update output imagestreamtag: "
                                                  +:+ Error conflict)))).
Proof.
  intros Hsteps Hsrc desired Hcreate out head. subst out.
  rewrite (Run_resolved ctx St c st st1 from Hsrc). cbv zeta. fold desired.
  rewrite Hcreate. cbn [fst snd]. fold head.
  split; intros Hexists; rewrite Hexists; [by split |].
  unfold RetryOnConflict.
  split; [| split; [| split]].
  - cbn [trace]. rewrite updates_app.
    pose proof (retry_updates_bounded c (Delay DefaultRetry) (namespace s)
                  (Steps DefaultRetry) 0 None desired st2).
    assert (updates head = 0) by reflexivity. lia.
  - intros script st' Hlost Hlen.
    destruct (Nat.le_exists_sub (Datatypes.S (length script)) (Steps DefaultRetry))
      as (m & Hm & _); [lia |].
    replace (Steps DefaultRetry) with (length script + Datatypes.S m) by lia.
    pose proof (exec_retry_lost c (Delay DefaultRetry) (namespace s) target desired
                  eq_refl eq_refl script st2 st' Hlost (Datatypes.S m) 0 None "") as E.
    change (set_ResourceVersion desired "") with desired in E.
    rewrite E. clear E. cbn [result final trace plus].
    rewrite exec_retry_loop, exec_update_attempt. cbv zeta.
    change (Namespace (ist_ObjectMeta (set_ResourceVersion desired _)))
      with (namespace s).
    change (Name (ist_ObjectMeta (set_ResourceVersion desired _))) with target.
    cbn [handle].
    assert (match length script with
            | O => []
            | Datatypes.S _ => [Sleep (Delay DefaultRetry (length script))]
            end
            = match length script with
              | O => []
              | Datatypes.S k => [Sleep (Delay DefaultRetry (Datatypes.S k))]
              end) as -> by (by destruct (length script)).
    split.
    + destruct (ImageStreamTags_Get c (namespace s) target st') as [[x | e] st3].
      * destruct (ImageStreamTags_Update c _ _ st3) as [[? | e] st4];
          cbn [result final trace fst snd].
        -- eexists. rewrite <- !app_assoc. reflexivity.
        -- destruct (IsConflict e); cbn [trace]; eexists;
             rewrite <- !app_assoc; reflexivity.
      * cbn [result final trace fst snd].
        destruct (IsConflict e); cbn [trace]; eexists;
          rewrite <- !app_assoc; reflexivity.
    + intros existing st3 ->. cbv zeta.
      change (set_ResourceVersion (set_ResourceVersion desired _)
                (ResourceVersion (ist_ObjectMeta existing)))
        with (mkImageStreamTag
                (mkObjectMeta target (namespace s)
                              (ResourceVersion (ist_ObjectMeta existing)))
                (Tag desired) (ist_Image desired)).
      split.
      * destruct (ImageStreamTags_Update c _ _ st3) as [[? | e] st4];
          cbn [result final trace fst snd].
        -- exists []. rewrite <- !app_assoc. reflexivity.
        -- destruct (IsConflict e); cbn [trace]; eexists;
             rewrite <- !app_assoc; reflexivity.
      * intros updated st4 ->. cbn [result final trace fst snd].
        split; [reflexivity |]. split; [| reflexivity].
        rewrite <- !app_assoc. reflexivity.
  - intros script existing conflict st' Hlost Hlen.
    replace (Steps DefaultRetry) with (length (script ++ [(existing, conflict)]) + 0)
      by (rewrite length_app; cbn; lia).
    pose proof (exec_retry_lost c (Delay DefaultRetry) (namespace s) target desired
                  eq_refl eq_refl _ st2 st' Hlost 0 0 None "") as E.
    change (set_ResourceVersion desired "") with desired in E.
    rewrite E. clear E. cbn [result final trace RetryOnConflict_loop exec snd].
    unfold last_conflict. rewrite fold_left_app. cbn [fold_left snd].
    rewrite app_nil_r. by split.
  - intros Hget Hupd.
    destruct (retry_exhausted c (Delay DefaultRetry) (namespace s) Hget Hupd
                (Steps DefaultRetry) 0 None desired st2) as [Hn Hr]; [done |].
    cbn [result trace]. split.
    + rewrite updates_app, Hn. reflexivity.
    + destruct (snd (result _)) as [e |].
      * by exists e.
      * destruct Hr as [_ Hr]. lia.
Qed.

(** C2, as the code has it.  A run that is not dry resolves the source
    first: the fetch of the source tag is its first remote call, and when
    that fetch fails the run ends there with an error that names the
    resolution.  A dry run resolves nothing: it makes no remote call,
    builds the desired resource on the placeholder image [dry-fake], prints
    it and returns nil. *)
Theorem Run_resolves_unless_dry (ctx : Context) (St : Type) (c : Client St) (st : St) :
  let wet := exec c (Run s ctx false) st in
  let dry := exec c (Run s ctx true) st in
  let resolve := IstGet (job_Namespace (jobSpec s)) source in
  (exists rest : list Op, trace wet = tagging :: resolve :: rest)
  /\ (forall (err : error) (st1 : St),
        ImageStreamTags_Get c (job_Namespace (jobSpec s)) source st = (inr err, st1) ->
        result wet = Some (errorString ("could not resolve base image: " +:+ Error err))
        /\ trace wet = [tagging; resolve])
  /\ List.filter is_remote (trace dry) = []
  /\ (forall istJSON : string,
        MarshalIndent (imageStreamTag s "dry-fake") = inl istJSON ->
        result dry = None
        /\ trace dry = [tagging; FmtPrintf (istJSON +:+ String "010"%char EmptyString)]).
Proof.
  intros wet dry resolve. split; [| split; [| split]].
  - subst wet.
    destruct (ImageStreamTags_Get c (job_Namespace (jobSpec s)) source st)
      as [[from | err] st1] eqn:Hsrc.
    + rewrite (Run_resolved ctx St c st st1 from Hsrc). cbv zeta.
      destruct (ImageStreamTags_Create c _ _ st1) as [[? | err] st2]; cbn [fst snd];
        [by eexists |].
      destruct (IsAlreadyExists err); by eexists.
    + rewrite (Run_unresolved ctx St c st st1 err Hsrc). by eexists.
  - intros err st1 Hsrc. subst wet.
    by rewrite (Run_unresolved ctx St c st st1 err Hsrc).
  - subst dry. unfold Run. rewrite exec_log_if.
    cbn [negb exec bind call handle result trace final fst snd].
    by destruct (MarshalIndent (imageStreamTag s "dry-fake")).
  - intros istJSON E. subst dry. unfold Run. rewrite exec_log_if.
    cbn [negb exec bind call handle result trace final fst snd].
    by rewrite E.
Qed.

(** C6, as the code has it.  A call of [Done] whose fetch of the target
    fails, with [NotFound] or with any other error, returns there: the
    fetch of the target is its only remote call and the source is not
    resolved.  A call that finds the target tag fetches the source tag anew
    and answers from the image that fetch returns; nothing is kept from one
    call to the next.  So when one call answers true and, at a later call,
    the target holds the same [Tag] while the source is backed by another
    image, the later call answers false. *)
Theorem Done_resolves_afresh (St : Type) (c : Client St) (st : St) :
  let out := exec c (Done s) st in
  (forall (err : error) (st1 : St),
      ImageStreamTags_Get c (namespace s) target st = (inr err, st1) ->
      trace out = [checking; IstGet (namespace s) target]
      /\ List.filter is_remote (trace out) = [IstGet (namespace s) target]
      /\ final out = st1
      /\ result out =
         (false,
          if IsNotFound err then None
          else Some (errorString ("could not retrieve output imagestreamtag: "
                                  +:+ Error err))))
  /\ (forall (st1 st2 : St) (actual from : ImageStreamTag),
        ImageStreamTags_Get c (namespace s) target st = (inl actual, st1) ->
        ImageStreamTags_Get c (job_Namespace (jobSpec s)) source st1 = (inl from, st2) ->
        trace out = [checking; IstGet (namespace s) target;
                     IstGet (job_Namespace (jobSpec s)) source]
        /\ result out =
           (Semantic_DeepEqual (Tag actual)
              (Tag (imageStreamTag s (Name (image_ObjectMeta (ist_Image from))))), None)
        /\ (forall (st' st1' st2' : St) (actual' from' : ImageStreamTag),
              ImageStreamTags_Get c (namespace s) target st' = (inl actual', st1') ->
              ImageStreamTags_Get c (job_Namespace (jobSpec s)) source st1'
              = (inl from', st2') ->
              Tag actual' = Tag actual ->
              Name (image_ObjectMeta (ist_Image from'))
              <> Name (image_ObjectMeta (ist_Image from)) ->
              result out = (true, None) ->
              result (exec c (Done s) st') = (false, None))).
Proof.
  intros out. split.
  - intros err st1 Hget. subst out. unfold Done.
    cbn [exec bind call handle result trace final fst snd].
    rewrite Hget. cbn [fst snd].
    by destruct (IsNotFound err).
  - intros st1 st2 actual from Hget Hsrc.
    assert (forall (a b : St) (x y : ImageStreamTag) (z : St),
               ImageStreamTags_Get c (namespace s) target a = (inl x, b) ->
               ImageStreamTags_Get c (job_Namespace (jobSpec s)) source b = (inl y, z) ->
               exec c (Done s) a =
               mkOutcome
                 (Semantic_DeepEqual (Tag x)
                    (Tag (imageStreamTag s (Name (image_ObjectMeta (ist_Image y))))), None)
                 z [checking; IstGet (namespace s) target;
                    IstGet (job_Namespace (jobSpec s)) source]) as Hdone.
    { intros a b x y z Ha Hb. unfold Done.
      cbn [exec bind call handle result trace final fst snd].
      rewrite Ha. cbn [exec bind call handle result trace final fst snd].
      rewrite Hb. reflexivity. }
    subst out. rewrite (Hdone _ _ _ _ _ Hget Hsrc). cbn [result trace].
    split; [reflexivity | split; [reflexivity |]].
    intros st' st1' st2' actual' from' Hget' Hsrc' Htag Hne [= Heq].
    rewrite (Hdone _ _ _ _ _ Hget' Hsrc'). cbn [result].
    f_equal. unfold Semantic_DeepEqual in *.
    apply bool_decide_eq_true_1 in Heq. apply bool_decide_eq_false_2.
    rewrite Htag, Heq. cbn. intros [= E].
    by apply append_inj_r, append_inj_r in E.
Qed.

(** Every operation of the retry loop addresses the target tag. *)
Lemma retry_addresses (St : Type) (c : Client St) (delay : nat -> Z) (n : nat) :
  forall (i : nat) (last : option error) (ist : ImageStreamTag) (st : St),
    Namespace (ist_ObjectMeta ist) = namespace s ->
    Name (ist_ObjectMeta ist) = target ->
    Forall (addresses s)
      (trace (exec c (RetryOnConflict_loop delay (update_attempt (namespace s)) n i last ist)
                   st)).
Proof.
  induction n as [| n IH]; intros i last ist st Hns Hname; [constructor |].
  rewrite exec_retry_loop, exec_update_attempt. cbv zeta. rewrite Hns, Hname.
  assert (Forall (addresses s) (match i with O => [] | _ => [Sleep (delay i)] end)) as Hp
    by (destruct i; addressed).
  assert (addresses s (IstGet (namespace s) target)) as Hg by (by left).
  assert (forall v, addresses s (IstUpdate (namespace s) (set_ResourceVersion ist v))) as Hu
    by (intros v; by repeat split).
  destruct (handle c (IstGet _ _) st) as [[x | e] st1].
  - destruct (handle c (IstUpdate _ _) st1) as [[? | e] st2];
      cbn [result final trace fst snd].
    + apply Forall_app; split; [done |]. by repeat (apply List.Forall_cons; [done |]).
    + destruct (IsConflict e); cbn [trace].
      * apply Forall_app; split; [done |].
        repeat (apply List.Forall_cons; [done |]). by apply IH.
      * apply Forall_app; split; [done |]. by repeat (apply List.Forall_cons; [done |]).
  - cbn [result final trace fst snd]. destruct (IsConflict e); cbn [trace].
    + apply Forall_app; split; [done |]. apply List.Forall_cons; [done |]. by apply IH.
    + apply Forall_app; split; [done |]. by repeat (apply List.Forall_cons; [done |]).
Qed.

(** C9.  The effective namespace is the namespace of the target when the
    configuration gives one, and the namespace of the run otherwise; the
    desired resource lies in it, and every remote call of [Run], of [Done]
    and of the exported parameter is made in it, on the target, the one
    exception being the fetch that resolves the source tag of the
    pipeline, made in the namespace of the run. *)
Theorem operations_share_namespace (ctx : Context) (dry : bool) (fromImage : string)
    (St : Type) (c : Client St) (st : St) :
  namespace s =
    (if bool_decide (to_Namespace (To (config s)) = "")
     then job_Namespace (jobSpec s)
     else to_Namespace (To (config s)))
  /\ Namespace (ist_ObjectMeta (imageStreamTag s fromImage)) = namespace s
  /\ Forall (addresses s) (trace (exec c (Run s ctx dry) st))
  /\ Forall (addresses s) (trace (exec c (Done s) st))
  /\ map_Forall (fun _ p => Forall (addresses s) (trace (exec c p st))) (fst (Provides s)).
Proof.
  split; [apply namespace_spec |]. split; [reflexivity |].
  split; [| split].
  - destruct dry.
    + unfold Run. rewrite exec_log_if.
      cbn [negb exec bind call handle result trace final fst snd].
      destruct (MarshalIndent _); cbn [exec trace]; addressed.
    + destruct (ImageStreamTags_Get c (job_Namespace (jobSpec s)) source st)
        as [[from | err] st1] eqn:Hsrc.
      * rewrite (Run_resolved ctx St c st st1 from Hsrc). cbv zeta.
        assert (Forall (addresses s)
                  [tagging; IstGet (job_Namespace (jobSpec s)) source;
                   IstCreate (namespace s)
                     (imageStreamTag s (Name (image_ObjectMeta (ist_Image from))))]) as Hh.
        { addressed. }
        destruct (ImageStreamTags_Create c _ _ st1) as [[? | err] st2]; cbn [fst snd];
          [done |].
        destruct (IsAlreadyExists err); cbn [trace]; [| done].
        apply Forall_app; split; [done |]. by apply retry_addresses.
      * rewrite (Run_unresolved ctx St c st st1 err Hsrc). cbn [trace].
        addressed.
  - unfold Done. cbn [exec bind call handle result trace final fst snd].
    destruct (ImageStreamTags_Get c (namespace s) target st) as [[ist | err] st1];
      cbn [exec bind call handle result trace final fst snd].
    + destruct (ImageStreamTags_Get c (job_Namespace (jobSpec s)) source st1)
        as [[from | err] st2]; cbn [exec trace]; addressed.
    + destruct (IsNotFound err); cbn [exec trace]; addressed.
  - unfold Provides. destruct (String.length _ =? 0)%nat; cbn [fst].
    + apply map_Forall_empty.
    + apply map_Forall_singleton. unfold image_parameter.
      cbn [exec bind call handle result trace final fst snd].
      destruct (ImageStreams_Get c _ _ st) as [[is_ | err] st1];
        cbn [exec trace fst snd]; [| addressed].
      destruct (0 <? String.length (PublicDockerImageRepository _))%nat;
        [cbn [exec trace]; addressed |].
      destruct (0 <? String.length (DockerImageRepository _))%nat;
        cbn [exec trace]; addressed.
Qed.
End Claims.

(** ** The theorems at the fixtures *)

Lemma Run_create_or_update_witness :
  let existing := stable_tag "sha256:old" in
  let conflict := StatusError StatusReasonConflict "the object has been modified" in
  let st := tagged_store "sha256:old" "sha256:aaa" in
  let swapped := exec memory_client (@Run sample_imports sample_step tt false) st in
  let retried := exec (contended_client existing)
                      (@Run sample_imports sample_step tt false) 2 in
  let lost := exec (losing_client existing) (@Run sample_imports sample_step tt false) tt in
  let refused := exec (forbidding_client existing)
                      (@Run sample_imports sample_step tt false) tt in
  0 < Steps (@DefaultRetry sample_imports)
  /\ result swapped = None
  /\ final swapped
     = mkStore (<[("ci-op-1", "stable:latest")
                 := mkImageStreamTag (mkObjectMeta "stable:latest" "ci-op-1" "8")
                      (Tag (@imageStreamTag sample_imports sample_step "sha256:aaa"))
                      zeroImage]> (tags st)) (streams st)
  /\ result retried = None
  /\ updates (trace retried) = 3
  /\ result lost
     = Some (errorString
               "could not update output imagestreamtag: the object has been modified")
  /\ updates (trace lost) = 5
  /\ result refused = Some (errorString "could not create output imagestreamtag: forbidden").
Proof.
  intros existing conflict st swapped retried lost refused.
  assert (0 < Steps (@DefaultRetry sample_imports)) as Hsteps by (cbn; lia).
  split; [exact Hsteps |].
  (* the store in memory checks the resource version of an update *)
  destruct (@Run_create_or_update sample_imports sample_step tt Store memory_client
              st st st (builder_tag "sha256:aaa")
              (StatusError StatusReasonAlreadyExists
                 "imagestreamtag stable:latest already exists")
              Hsteps ltac:(vm_compute; reflexivity) ltac:(vm_compute; reflexivity))
    as [_ Hswapped].
  destruct (Hswapped eq_refl) as (_ & Hattempt & _).
  destruct (Hattempt [] st) as [_ Hfetched]; [apply lost_none | exact Hsteps |].
  destruct (Hfetched existing st ltac:(vm_compute; reflexivity)) as [_ Hupdated].
  pose (ist := mkImageStreamTag (mkObjectMeta "stable:latest" "ci-op-1" "8")
                 (Tag (@imageStreamTag sample_imports sample_step "sha256:aaa")) zeroImage).
  pose (st4 := mkStore (<[("ci-op-1", "stable:latest") := ist]> (tags st)) (streams st)).
  destruct (Hupdated ist st4 ltac:(vm_compute; reflexivity)) as (Hres & _ & Hfinal).
  split; [exact Hres |]. split; [exact Hfinal |].
  (* two lost updates, then a third that succeeds *)
  destruct (@Run_create_or_update sample_imports sample_step tt nat
              (contended_client existing) 2 2 2 existing
              (StatusError StatusReasonAlreadyExists "already exists")
              Hsteps eq_refl eq_refl) as [_ Hretried].
  destruct (Hretried eq_refl) as (_ & Hattempt' & _).
  destruct (Hattempt' [(existing, conflict); (existing, conflict)] 0) as [_ Hfetched'].
  { eapply lost_one; [reflexivity | reflexivity | reflexivity |].
    eapply lost_one; [reflexivity | reflexivity | reflexivity |].
    apply lost_none. }
  { cbn. lia. }
  destruct (Hfetched' existing 0 eq_refl) as [_ Hupdated'].
  destruct (Hupdated' _ 0 eq_refl) as (Hres' & Htrace' & _).
  split; [exact Hres' |].
  split; [unfold retried; rewrite Htrace'; reflexivity |].
  (* every update lost: the bound is used up *)
  destruct (@Run_create_or_update sample_imports sample_step tt unit
              (losing_client existing) tt tt tt existing
              (StatusError StatusReasonAlreadyExists "already exists")
              Hsteps eq_refl eq_refl) as [_ Hlost].
  destruct (Hlost eq_refl) as (_ & _ & Hexhausted & _).
  destruct (Hexhausted [(existing, conflict); (existing, conflict);
                        (existing, conflict); (existing, conflict)]
                       existing conflict tt) as (Hres'' & Htrace'' & _).
  { repeat (eapply lost_one; [reflexivity | reflexivity | reflexivity |]).
    apply lost_none. }
  { reflexivity. }
  split; [exact Hres'' |].
  split; [unfold lost; rewrite Htrace''; reflexivity |].
  (* a create refused for another reason *)
  destruct (@Run_create_or_update sample_imports sample_step tt unit
              (forbidding_client existing) tt tt tt existing
              (StatusError StatusReasonUnknown "forbidden")
              Hsteps eq_refl eq_refl) as [Hrefused _].
  destruct (Hrefused eq_refl) as [Hres3 _]. exact Hres3.
Defined.

Lemma Done_absent_is_not_done_witness :
  let st := built_store "sha256:aaa" in
  let out := exec memory_client (@Done sample_imports sample_step) st in
  ImageStreamTags_Get memory_client "ci-op-1" "stable:latest" st
  = (inr (StatusError StatusReasonNotFound "imagestreamtag stable:latest not found"), st)
  /\ result out = (false, None)
  /\ final out = st.
Proof.
  intros st out.
  assert (ImageStreamTags_Get memory_client "ci-op-1" "stable:latest" st
          = (inr (StatusError StatusReasonNotFound
                    "imagestreamtag stable:latest not found"), st)) as Hget
    by (vm_compute; reflexivity).
  split; [exact Hget |].
  destruct (@Done_absent_is_not_done sample_imports sample_step Store memory_client
              st st _ Hget eq_refl) as (Hres & _ & _ & Hfinal).
  split; [exact Hres | exact Hfinal].
Defined.

Lemma Done_compares_owned_fields_witness :
  let same := exec memory_client (@Done sample_imports sample_step)
                   (tagged_store "sha256:aaa" "sha256:aaa") in
  let other := exec memory_client (@Done sample_imports sample_step)
                    (tagged_store "sha256:old" "sha256:aaa") in
  let served := exec memory_client (@Done sample_imports sample_step)
                     (served_store "sha256:aaa") in
  result same = (true, None)
  /\ result other = (false, None)
  /\ result served = (false, None).
Proof.
  intros same other served. split; [| split].
  - destruct (@Done_compares_owned_fields sample_imports sample_step Store memory_client
                (tagged_store "sha256:aaa" "sha256:aaa") _ _
                (stable_tag "sha256:aaa") (builder_tag "sha256:aaa")
                ltac:(vm_compute; reflexivity) ltac:(vm_compute; reflexivity))
      as (_ & Hmodulo & _ & _).
    exact (Hmodulo "8" (mkImage (mkObjectMeta "sha256:aaa" "" "")) eq_refl).
  - destruct (@Done_compares_owned_fields sample_imports sample_step Store memory_client
                (tagged_store "sha256:old" "sha256:aaa") _ _
                (stable_tag "sha256:old") (builder_tag "sha256:aaa")
                ltac:(vm_compute; reflexivity) ltac:(vm_compute; reflexivity))
      as (_ & _ & Hdiffer & _).
    apply Hdiffer. vm_compute. discriminate.
  - destruct (@Done_compares_owned_fields sample_imports sample_step Store memory_client
                (served_store "sha256:aaa") _ _
                (served_tag "sha256:aaa") (builder_tag "sha256:aaa")
                ltac:(vm_compute; reflexivity) ltac:(vm_compute; reflexivity))
      as (_ & _ & Hdiffer & _).
    apply Hdiffer. vm_compute. discriminate.
Defined.

Lemma Run_dry_never_mutates_witness :
  let out := exec memory_client (@Run sample_imports sample_step tt true) empty_store in
  Forall (fun o => is_mutation o = false) (trace out)
  /\ final out = empty_store
  /\ result out = None.
Proof.
  intros out.
  destruct (@Run_dry_never_mutates sample_imports sample_step tt Store memory_client
              empty_store) as (Hmut & Hfinal & Hprint).
  split; [exact Hmut |]. split; [exact Hfinal |].
  destruct (Hprint _ eq_refl) as [Hres _]. exact Hres.
Defined.

Lemma provider_prefers_public_witness :
  let run st := result (exec memory_client (image_parameter exporting_step) st) in
  fst (Provides exporting_step) !! "IMAGE_TEST_BIN"
  = Some (image_parameter exporting_step)
  /\ run (stream_store "registry.svc:5000/release/stable" "registry.example.com/release/stable")
     = ("registry.example.com/release/stable:latest", None)
  /\ run (stream_store "registry.svc:5000/release/stable" "")
     = ("registry.svc:5000/release/stable:latest", None)
  /\ run (stream_store "" "")
     = ("", Some (errorString "image stream test-bin has no accessible image registry value")).
Proof.
  intros run.
  assert (fst (Provides exporting_step) !! "IMAGE_TEST_BIN"
          = Some (image_parameter exporting_step)) as Hp
    by (vm_compute; reflexivity).
  split; [exact Hp |].
  split; [| split].
  - destruct (provider_prefers_public exporting_step _ _ Store memory_client
                (stream_store "registry.svc:5000/release/stable"
                              "registry.example.com/release/stable") _ _ Hp
                ltac:(vm_compute; reflexivity)) as (_ & Hpub & _).
    apply Hpub. discriminate.
  - destruct (provider_prefers_public exporting_step _ _ Store memory_client
                (stream_store "registry.svc:5000/release/stable" "") _ _ Hp
                ltac:(vm_compute; reflexivity)) as (_ & _ & Hint & _).
    apply Hint; [reflexivity | discriminate].
  - destruct (provider_prefers_public exporting_step _ _ Store memory_client
                (stream_store "" "") _ _ Hp
                ltac:(vm_compute; reflexivity)) as (_ & _ & _ & Hnone).
    apply Hnone; reflexivity.
Defined.

Lemma Provides_nothing_without_As_witness :
  As (To (config sample_step)) = ""
  /\ Provides sample_step = (∅, None).
Proof.
  split; [reflexivity |].
  exact (Provides_nothing_without_As sample_step eq_refl).
Defined.


Lemma Run_resolves_unless_dry_witness :
  let wet := exec memory_client (@Run sample_imports sample_step tt false) empty_store in
  let dry := exec memory_client (@Run sample_imports sample_step tt true) empty_store in
  result wet = Some (errorString
                       "could not resolve base image: imagestreamtag pipeline:builder not found")
  /\ List.filter is_remote (trace wet) = [IstGet "ci-op-1" "pipeline:builder"]
  /\ List.filter is_remote (trace dry) = []
  /\ result dry = None.
Proof.
  intros wet dry.
  destruct (@Run_resolves_unless_dry sample_imports sample_step tt Store memory_client
              empty_store) as (_ & Hfatal & Hnone & Hprint).
  destruct (Hfatal _ empty_store ltac:(vm_compute; reflexivity)) as [Hres Htrace].
  split; [exact Hres |].
  split; [unfold wet; rewrite Htrace; reflexivity |].
  split; [exact Hnone |].
  destruct (Hprint _ eq_refl) as [Hdry _]. exact Hdry.
Defined.

Lemma Done_resolves_afresh_witness :
  let before := tagged_store "sha256:aaa" "sha256:aaa" in
  let after := tagged_store "sha256:aaa" "sha256:bbb" in
  let absent := exec memory_client (@Done sample_imports sample_step)
                     (built_store "sha256:aaa") in
  let unreachable := exec broken_client (@Done sample_imports sample_step) tt in
  tags before !! ("ci-op-1", "stable:latest") = tags after !! ("ci-op-1", "stable:latest")
  /\ result (exec memory_client (@Done sample_imports sample_step) before) = (true, None)
  /\ result (exec memory_client (@Done sample_imports sample_step) after) = (false, None)
  /\ List.filter is_remote (trace absent) = [IstGet "ci-op-1" "stable:latest"]
  /\ result absent = (false, None)
  /\ List.filter is_remote (trace unreachable) = [IstGet "ci-op-1" "stable:latest"]
  /\ result unreachable
     = (false, Some (errorString
                       "could not retrieve output imagestreamtag: connection refused")).
Proof.
  intros before after absent unreachable.
  split; [vm_compute; reflexivity |].
  destruct (@Done_resolves_afresh sample_imports sample_step Store memory_client before)
    as [_ Hfound].
  destruct (Hfound before before (stable_tag "sha256:aaa") (builder_tag "sha256:aaa")
              ltac:(vm_compute; reflexivity) ltac:(vm_compute; reflexivity))
    as (_ & Hres & Hlater).
  assert (result (exec memory_client (@Done sample_imports sample_step) before)
          = (true, None)) as Htrue by (rewrite Hres; vm_compute; reflexivity).
  split; [exact Htrue |].
  split.
  { apply (Hlater after after after (stable_tag "sha256:aaa") (builder_tag "sha256:bbb"));
      [vm_compute; reflexivity | vm_compute; reflexivity | reflexivity
      | vm_compute; discriminate | exact Htrue]. }
  destruct (@Done_resolves_afresh sample_imports sample_step Store memory_client
              (built_store "sha256:aaa")) as [Hmissing _].
  destruct (Hmissing
              (StatusError StatusReasonNotFound "imagestreamtag stable:latest not found")
              (built_store "sha256:aaa") ltac:(vm_compute; reflexivity))
    as (_ & Hcalls & _ & Hres').
  split; [exact Hcalls |]. split; [exact Hres' |].
  destruct (@Done_resolves_afresh sample_imports sample_step unit broken_client tt)
    as [Hbroken _].
  destruct (Hbroken (StatusError StatusReasonUnknown "connection refused") tt eq_refl)
    as (_ & Hcalls' & _ & Hres'').
  split; [exact Hcalls' | exact Hres''].
Defined.

(** ** Where two sentences of the specification part from the code *)

(** C2, as stated, fails for a dry run.  The store is empty, so the source
    tag [pipeline:builder] does not resolve; the dry run never asks for it
    (it makes no remote call at all) and returns nil. *)
Lemma Run_dry_skips_resolution :
  let out := exec memory_client (@Run sample_imports sample_step tt true) empty_store in
  fst (ImageStreamTags_Get memory_client "ci-op-1" "pipeline:builder" empty_store)
  = inr (StatusError StatusReasonNotFound "imagestreamtag pipeline:builder not found")
  /\ ~ In (IstGet "ci-op-1" "pipeline:builder") (trace out)
  /\ List.filter is_remote (trace out) = []
  /\ result out = None.
Proof.
  cbv zeta. split; [vm_compute; reflexivity |].
  split; [| split; vm_compute; reflexivity].
  vm_compute. intros [E | [E | []]]; discriminate E.
Qed.

(** C6, as stated, fails for a call that does not find the target.  The
    store holds the pipeline tag and no target tag; [Done] fetches the
    target, finds it missing and answers without fetching the source. *)
Lemma Done_absent_skips_resolution :
  let out := exec memory_client (@Done sample_imports sample_step)
                  (built_store "sha256:aaa") in
  trace out = [LogPrintf "Checking for existence of ci-op-1/stable:latest";
               IstGet "ci-op-1" "stable:latest"]
  /\ ~ In (IstGet "ci-op-1" "pipeline:builder") (trace out)
  /\ result out = (false, None).
Proof.
  cbv zeta. split; [vm_compute; reflexivity |].
  split; [| vm_compute; reflexivity].
  vm_compute. intros [E | [E | []]]; discriminate E.
Qed.

(** ** The scenarios of the specification, run on the store in memory *)

(** No tag yet: [Run] creates [stable:latest] on the image behind
    [builder], after which [Done] answers true. *)
Example scenario_create_then_done :
  let ran := exec memory_client (@Run sample_imports sample_step tt false)
                  (built_store "sha256:aaa") in
  result ran = None
  /\ tags (final ran) !! ("ci-op-1", "stable:latest")
     = Some (@imageStreamTag sample_imports sample_step "sha256:aaa")
  /\ result (exec memory_client (@Done sample_imports sample_step) (final ran))
     = (true, None).
Proof. cbv zeta. repeat split; vm_compute; reflexivity. Qed.

(** Four conflicts and then a success: [Run] succeeds on its fifth and
    last attempt; with one conflict more it fails. *)
Example scenario_conflicts_then_success :
  let existing := stable_tag "sha256:old" in
  let run n := exec (contended_client existing)
                    (@Run sample_imports sample_step tt false) n in
  result (run 4) = None
  /\ updates (trace (run 4)) = 5
  /\ result (run 5)
     = Some (errorString
               "could not update output imagestreamtag: the object has been modified")
  /\ updates (trace (run 5)) = 5.
Proof. cbv zeta. repeat split; vm_compute; reflexivity. Qed.

(** The name of the exported parameter. *)
Example scenario_parameter_name :
  dom (fst (Provides exporting_step)) = ({[ "IMAGE_TEST_BIN" ]} : gset string).
Proof. vm_compute. reflexivity. Qed.

(** * Further properties of the step *)

Lemma upper_ascii_not_lower (c : ascii) : is_lower (upper_ascii c) = false.
Proof. by destruct c as [[] [] [] [] [] [] [] []]. Qed.

Lemma upper_ascii_keeps_underscore (c : ascii) :
  is_lower c = false -> upper_ascii c = c.
Proof. by destruct c as [[] [] [] [] [] [] [] []]. Qed.

Lemma upper_ascii_not_dash (c : ascii) : c <> "-"%char -> upper_ascii c <> "-"%char.
Proof. by destruct c as [[] [] [] [] [] [] [] []]. Qed.

Lemma parameter_name_chars (x : string) :
  Forall (fun c => c <> "-"%char /\ is_lower c = false)
         (list_ascii_of_string (ToUpper (replace_dash x))).
Proof.
  induction x as [| c x IH]; cbn [replace_dash ToUpper list_ascii_of_string];
    [constructor |].
  apply List.Forall_cons; [| exact IH]. split.
  - apply upper_ascii_not_dash. destruct (Ascii.eqb c "-") eqn:E; [done |].
    by apply Ascii.eqb_neq.
  - apply upper_ascii_not_lower.
Qed.

Lemma parameter_name_length (x : string) :
  String.length (ToUpper (replace_dash x)) = String.length x.
Proof. induction x as [| c x IH]; cbn; [done | by rewrite IH]. Qed.

Lemma set_ResourceVersion_twice (ist : ImageStreamTag) (a b : string) :
  set_ResourceVersion (set_ResourceVersion ist a) b = set_ResourceVersion ist b.
Proof. reflexivity. Qed.

Section Further.
Context `{Imports}.
Variable s : outputImageTagStep.

Local Abbreviation target := (to_Name (To (config s)) +:+ ":" +:+ to_Tag (To (config s))).
Local Abbreviation source := (PipelineImageStream +:+ ":" +:+ cfg_From (config s)).
Local Abbreviation checking :=
  (LogPrintf ("Checking for existence of " +:+ namespace s +:+ "/"
              +:+ to_Name (To (config s)) +:+ ":" +:+ to_Tag (To (config s)))).

(** [Done], by the answers of the store. *)
Lemma exec_Done (St : Type) (c : Client St) (st : St) :
  exec c (Done s) st =
  let fetch := IstGet (namespace s) target in
  let resolve := IstGet (job_Namespace (jobSpec s)) source in
  match ImageStreamTags_Get c (namespace s) target st with
  | (inr err, st1) =>
      mkOutcome
        (if IsNotFound err then (false, None)
         else (false, Some (Errorf "could not retrieve output imagestreamtag" err)))
        st1 [checking; fetch]
  | (inl ist, st1) =>
      match ImageStreamTags_Get c (job_Namespace (jobSpec s)) source st1 with
      | (inr err, st2) =>
          mkOutcome (false, Some (Errorf "could not resolve base image" err))
                    st2 [checking; fetch; resolve]
      | (inl from, st2) =>
          mkOutcome
            (Semantic_DeepEqual (Tag ist)
               (Tag (imageStreamTag s (Name (image_ObjectMeta (ist_Image from))))), None)
            st2 [checking; fetch; resolve]
      end
  end.
Proof.
  unfold Done. cbn [exec bind call handle result trace final fst snd].
  destruct (ImageStreamTags_Get c (namespace s) target st) as [[ist | err] st1];
    cbn [exec bind call handle result trace final fst snd].
  - by destruct (ImageStreamTags_Get c (job_Namespace (jobSpec s)) source st1)
      as [[from | err] st2].
  - by destruct (IsNotFound err).
Qed.

(** X1.  A fetch of the target that fails for another reason than [NotFound] is
    an error of [Done]: it answers false with an error that names the
    fetch and wraps the message of the store, and it does not go on to
    resolve the source. *)
Theorem Done_fetch_error (St : Type) (c : Client St) (st st1 : St) (err : error) :
  ImageStreamTags_Get c (namespace s) target st = (inr err, st1) ->
  IsNotFound err = false ->
  let out := exec c (Done s) st in
  result out = (false, Some (errorString ("could not retrieve output imagestreamtag: "
                                         +:+ Error err)))
  /\ trace out = [checking; IstGet (namespace s) target]
  /\ final out = st1.
Proof.
  intros Hget Hnf out. subst out. rewrite exec_Done. cbv zeta.
  rewrite Hget, Hnf. by repeat split.
Qed.

(** X2.  When the target exists and the source tag does not resolve, [Done]
    answers false with an error that names the resolution, whatever the
    target holds. *)
Theorem Done_unresolved_source (St : Type) (c : Client St) (st st1 st2 : St)
    (actual : ImageStreamTag) (err : error) :
  ImageStreamTags_Get c (namespace s) target st = (inl actual, st1) ->
  ImageStreamTags_Get c (job_Namespace (jobSpec s)) source st1 = (inr err, st2) ->
  let out := exec c (Done s) st in
  result out = (false, Some (errorString ("could not resolve base image: "
                                         +:+ Error err)))
  /\ trace out = [checking; IstGet (namespace s) target;
                  IstGet (job_Namespace (jobSpec s)) source].
Proof.
  intros Hget Hsrc out. subst out. rewrite exec_Done. cbv zeta.
  rewrite Hget, Hsrc. by split.
Qed.

(** X3.  [Done] only reads: against any store it writes nothing, makes at most
    two remote calls, both fetches, and never answers true together with
    an error. *)
Theorem Done_only_reads (St : Type) (c : Client St) (st : St) :
  let out := exec c (Done s) st in
  Forall (fun o => written o = None) (trace out)
  /\ length (List.filter is_remote (trace out)) <= 2
  /\ (snd (result out) = None \/ fst (result out) = false).
Proof.
  intros out. subst out. rewrite exec_Done. cbv zeta.
  destruct (ImageStreamTags_Get c (namespace s) target st) as [[ist | err] st1].
  - destruct (ImageStreamTags_Get c (job_Namespace (jobSpec s)) source st1)
      as [[from | err] st2]; cbn [result trace fst snd];
      (split; [repeat constructor | split; [cbn; lia | auto]]).
  - cbn [result trace]. split; [repeat constructor | split; [cbn; lia |]].
    destruct (IsNotFound err); auto.
Qed.

(** X4.  [Done] answers true only when the target was fetched, the source was
    resolved, and the tag stored in the target refers, with the local
    reference policy, to the image that the source tag is backed by at
    this very call, in the namespace of the run. *)
Theorem Done_true_is_sound (St : Type) (c : Client St) (st : St) :
  fst (result (exec c (Done s) st)) = true ->
  exists (actual from : ImageStreamTag) (st1 st2 : St) (tag : TagReference),
    ImageStreamTags_Get c (namespace s) target st = (inl actual, st1)
    /\ ImageStreamTags_Get c (job_Namespace (jobSpec s)) source st1 = (inl from, st2)
    /\ Tag actual = Some tag
    /\ From tag = Some (mkObjectReference "ImageStreamImage"
                          (PipelineImageStream +:+ "@"
                           +:+ Name (image_ObjectMeta (ist_Image from)))
                          (job_Namespace (jobSpec s)) "" "" "" "")
    /\ policy_Type (ReferencePolicy tag) = LocalTagReferencePolicy
    /\ result (exec c (Done s) st) = (true, None).
Proof.
  rewrite exec_Done. cbv zeta.
  destruct (ImageStreamTags_Get c (namespace s) target st)
    as [[actual | err] st1] eqn:Hget.
  - destruct (ImageStreamTags_Get c (job_Namespace (jobSpec s)) source st1)
      as [[from | err] st2] eqn:Hsrc; cbn [result fst]; [| discriminate].
    intros E. unfold Semantic_DeepEqual in E. apply bool_decide_eq_true_1 in E.
    exists actual, from, st1, st2. eexists.
    split; [reflexivity |]. split; [exact Hsrc |].
    split; [exact E |]. split; [reflexivity |]. split; [reflexivity |].
    unfold Semantic_DeepEqual. by rewrite bool_decide_eq_true_2.
  - cbn [result fst]. by destruct (IsNotFound err).
Qed.

Local Abbreviation tagging :=
  (LogPrintf
     (if String.eqb (cfg_From (config s)) (to_Tag (To (config s)))
         && String.eqb (namespace s) (job_Namespace (jobSpec s))
         && String.eqb (to_Name (To (config s))) StableImageStream
      then "Tagging " +:+ cfg_From (config s) +:+ " into " +:+ to_Name (To (config s))
      else "Tagging " +:+ cfg_From (config s) +:+ " into " +:+ namespace s +:+ "/"
           +:+ to_Name (To (config s)) +:+ ":" +:+ to_Tag (To (config s)))).

(** X5.  When the create succeeds the run is over: [Run] returns nil after the
    resolution and the create, without a fetch of the target, an update or
    a pause. *)
Theorem Run_created (ctx : Context) (St : Type) (c : Client St) (st st1 st2 : St)
    (from created : ImageStreamTag) :
  ImageStreamTags_Get c (job_Namespace (jobSpec s)) source st = (inl from, st1) ->
  let desired := imageStreamTag s (Name (image_ObjectMeta (ist_Image from))) in
  ImageStreamTags_Create c (namespace s) desired st1 = (inl created, st2) ->
  let out := exec c (Run s ctx false) st in
  result out = None
  /\ trace out = [tagging; IstGet (job_Namespace (jobSpec s)) source;
                  IstCreate (namespace s) desired]
  /\ final out = st2.
Proof.
  intros Hsrc desired Hcreate out. subst out.
  rewrite (Run_resolved s ctx St c st st1 from Hsrc). cbv zeta. fold desired.
  by rewrite Hcreate.
Qed.

(** X6.  After [AlreadyExists], an error that is not a conflict ends the run at
    once, without a pause or a further attempt, and [Run] reports it as a
    failure of the update: so for a failed update, and so too for a failed
    fetch of the stored tag, after which no update is attempted. *)
Theorem Run_update_failure_is_fatal (ctx : Context) (St : Type) (c : Client St)
    (st st1 st2 : St) (from : ImageStreamTag) (exists_ : error) :
  0 < Steps DefaultRetry ->
  ImageStreamTags_Get c (job_Namespace (jobSpec s)) source st = (inl from, st1) ->
  let desired := imageStreamTag s (Name (image_ObjectMeta (ist_Image from))) in
  ImageStreamTags_Create c (namespace s) desired st1 = (inr exists_, st2) ->
  IsAlreadyExists exists_ = true ->
  let out := exec c (Run s ctx false) st in
  let head := [tagging; IstGet (job_Namespace (jobSpec s)) source;
               IstCreate (namespace s) desired] in
  (forall (err : error) (st3 : St),
      ImageStreamTags_Get c (namespace s) target st2 = (inr err, st3) ->
      IsConflict err = false ->
      result out = Some (errorString ("could not update output imagestreamtag: "
                                      +:+ Error err))
      /\ trace out = head ++ [IstGet (namespace s) target]
      /\ final out = st3)
  /\ (forall (existing : ImageStreamTag) (err : error) (st3 st4 : St),
        ImageStreamTags_Get c (namespace s) target st2 = (inl existing, st3) ->
        let ist :=
          set_ResourceVersion desired (ResourceVersion (ist_ObjectMeta existing)) in
        ImageStreamTags_Update c (namespace s) ist st3 = (inr err, st4) ->
        IsConflict err = false ->
        result out = Some (errorString ("could not update output imagestreamtag: "
                                        +:+ Error err))
        /\ trace out = head ++ [IstGet (namespace s) target; IstUpdate (namespace s) ist]
        /\ final out = st4).
Proof.
  intros Hsteps Hsrc desired Hcreate Hexists out head. subst out.
  rewrite (Run_resolved s ctx St c st st1 from Hsrc). cbv zeta. fold desired.
  rewrite Hcreate. cbn [fst snd]. rewrite Hexists. fold head.
  unfold RetryOnConflict.
  destruct (Steps DefaultRetry) as [| n]; [lia |].
  rewrite exec_retry_loop, exec_update_attempt. cbv zeta.
  change (Namespace (ist_ObjectMeta desired)) with (namespace s).
  change (Name (ist_ObjectMeta desired)) with target.
  cbn [handle]. split.
  - intros err st3 -> Hc. cbn [result final trace fst snd]. rewrite Hc.
    by cbn [result final trace].
  - intros existing err st3 st4 -> Hupd Hc. cbv zeta in Hupd. rewrite Hupd.
    cbn [result final trace fst snd]. rewrite Hc. by cbn [result final trace].
Qed.

(** What the retry loop writes is the resource it was given, up to the
    resource version. *)
Lemma retry_writes (St : Type) (c : Client St) (delay : nat -> Z) (ns : string)
    (desired : ImageStreamTag) (n : nat) :
  forall (i : nat) (last : option error) (ist : ImageStreamTag) (st : St),
    (exists rv, ist = set_ResourceVersion desired rv) ->
    Forall (fun o => forall w, written o = Some w ->
                               exists rv, w = set_ResourceVersion desired rv)
      (trace (exec c (RetryOnConflict_loop delay (update_attempt ns) n i last ist) st)).
Proof.
  induction n as [| n IH]; intros i last ist st [rv ->]; [constructor |].
  rewrite exec_retry_loop, exec_update_attempt. cbv zeta.
  assert (Forall (fun o => forall w, written o = Some w ->
                                     exists rv, w = set_ResourceVersion desired rv)
                 (match i with O => [] | _ => [Sleep (delay i)] end)) as Hp.
  { destruct i; repeat constructor. intros w [=]. }
  destruct (handle c (IstGet _ _) st) as [[x | e] st1].
  - rewrite set_ResourceVersion_twice.
    assert (Forall (fun o => forall w, written o = Some w ->
                                       exists rv, w = set_ResourceVersion desired rv)
              [IstGet (Namespace (ist_ObjectMeta (set_ResourceVersion desired rv)))
                      (Name (ist_ObjectMeta (set_ResourceVersion desired rv)));
               IstUpdate ns (set_ResourceVersion desired
                               (ResourceVersion (ist_ObjectMeta x)))]) as Ha.
    { apply List.Forall_cons; [intros w [=] |].
      apply List.Forall_cons; [| constructor]. intros w [= <-]. by eexists. }
    destruct (handle c (IstUpdate _ _) st1) as [[? | e] st2];
      cbn [result final trace fst snd].
    + by apply Forall_app.
    + destruct (IsConflict e); cbn [trace].
      * apply Forall_app; split; [done |]. apply Forall_app; split; [done |].
        apply IH. by eexists.
      * by apply Forall_app.
  - cbn [result final trace fst snd].
    assert (Forall (fun o => forall w, written o = Some w ->
                                       exists rv, w = set_ResourceVersion desired rv)
              [IstGet (Namespace (ist_ObjectMeta (set_ResourceVersion desired rv)))
                      (Name (ist_ObjectMeta (set_ResourceVersion desired rv)))]) as Ha.
    { apply List.Forall_cons; [intros w [=] | constructor]. }
    destruct (IsConflict e); cbn [trace].
    + apply Forall_app; split; [done |]. apply Forall_app; split; [done |].
      apply IH. by eexists.
    + by apply Forall_app.
Qed.

(** X7.  Whatever the store answers, and through every retry, each resource a
    run writes, by a create or by an update, is the desired resource built
    on the resolved image: only its resource version may differ, so
    nothing else of a stored resource is ever written back. *)
Theorem Run_writes_desired (ctx : Context) (St : Type) (c : Client St) (st st1 : St)
    (from : ImageStreamTag) :
  ImageStreamTags_Get c (job_Namespace (jobSpec s)) source st = (inl from, st1) ->
  let desired := imageStreamTag s (Name (image_ObjectMeta (ist_Image from))) in
  Forall (fun o => forall w, written o = Some w ->
                             exists rv, w = set_ResourceVersion desired rv)
         (trace (exec c (Run s ctx false) st)).
Proof.
  intros Hsrc desired.
  rewrite (Run_resolved s ctx St c st st1 from Hsrc). cbv zeta. fold desired.
  assert (Forall (fun o => forall w, written o = Some w ->
                                     exists rv, w = set_ResourceVersion desired rv)
            [tagging; IstGet (job_Namespace (jobSpec s)) source;
             IstCreate (namespace s) desired]) as Hh.
  { apply List.Forall_cons; [intros w [=] |].
    apply List.Forall_cons; [intros w [=] |].
    apply List.Forall_cons; [| constructor]. intros w [= <-]. by exists "". }
  destruct (ImageStreamTags_Create c _ _ st1) as [[? | err] st2]; cbn [fst snd];
    [done |].
  destruct (IsAlreadyExists err); cbn [trace]; [| done].
  apply Forall_app; split; [done |].
  apply retry_writes. by exists "".
Qed.

(** A run on the store in memory, when the source tag is there: it
    succeeds, and leaves the desired resource under the name of the
    target, with the resource version of the tag it replaced, if any. *)
Lemma Run_in_memory (ctx : Context) (st : Store) (from : ImageStreamTag) :
  0 < Steps DefaultRetry ->
  tags st !! (job_Namespace (jobSpec s), source) = Some from ->
  let desired := imageStreamTag s (Name (image_ObjectMeta (ist_Image from))) in
  let rv := match tags st !! (namespace s, target) with
            | Some existing => ResourceVersion (ist_ObjectMeta existing)
            | None => ""
            end in
  let ran := exec memory_client (Run s ctx false) st in
  result ran = None
  /\ final ran = mkStore (<[(namespace s, target) := set_ResourceVersion desired rv]>
                            (tags st)) (streams st).
Proof.
  intros Hsteps Hfrom desired rv ran. subst ran rv.
  assert (ImageStreamTags_Get memory_client (job_Namespace (jobSpec s)) source st
          = (inl from, st)) as Hsrc by (cbn; by rewrite Hfrom).
  rewrite (Run_resolved s ctx Store memory_client st st from Hsrc). cbv zeta.
  fold desired. cbn [ImageStreamTags_Create memory_client].
  change (Name (ist_ObjectMeta desired)) with target.
  destruct (tags st !! (namespace s, target)) as [existing |] eqn:Hold;
    cbn [fst snd]; [| by split].
  change (IsAlreadyExists _) with true. cbv iota.
  unfold RetryOnConflict. destruct (Steps DefaultRetry) as [| n]; [lia |].
  rewrite exec_retry_loop, exec_update_attempt. cbv zeta.
  change (Namespace (ist_ObjectMeta desired)) with (namespace s).
  change (Name (ist_ObjectMeta desired)) with target.
  cbn [handle ImageStreamTags_Get ImageStreamTags_Update memory_client].
  rewrite Hold.
  change (Name (ist_ObjectMeta (set_ResourceVersion desired _))) with target.
  rewrite Hold.
  change (ResourceVersion (ist_ObjectMeta (set_ResourceVersion desired ?v))) with v.
  rewrite String.eqb_refl. by cbn [result final trace fst snd].
Qed.

(** X8.  On a store that keeps what it is given, and for a target that is not
    the source tag itself, the operations compose as a reconciliation
    should: a run succeeds, [Done] then answers true, and a second run
    leaves the store exactly as the first one left it. *)
Theorem Run_then_Done_in_memory (ctx : Context) (st : Store) (from : ImageStreamTag) :
  0 < Steps DefaultRetry ->
  tags st !! (job_Namespace (jobSpec s), source) = Some from ->
  (namespace s, target) <> (job_Namespace (jobSpec s), source) ->
  let ran := exec memory_client (Run s ctx false) st in
  result ran = None
  /\ result (exec memory_client (Done s) (final ran)) = (true, None)
  /\ result (exec memory_client (Run s ctx false) (final ran)) = None
  /\ final (exec memory_client (Run s ctx false) (final ran)) = final ran.
Proof.
  intros Hsteps Hfrom Hne ran.
  destruct (Run_in_memory ctx st from Hsteps Hfrom) as [Hres Hfinal].
  fold ran in Hres, Hfinal.
  set (desired := imageStreamTag s (Name (image_ObjectMeta (ist_Image from)))) in *.
  set (rv := match tags st !! (namespace s, target) with
             | Some existing => ResourceVersion (ist_ObjectMeta existing)
             | None => ""
             end) in *.
  assert (tags (final ran) !! (job_Namespace (jobSpec s), source) = Some from) as Hfrom'.
  { rewrite Hfinal. cbn [tags]. by rewrite lookup_insert_ne. }
  assert (tags (final ran) !! (namespace s, target)
          = Some (set_ResourceVersion desired rv)) as Hnew.
  { rewrite Hfinal. cbn [tags]. by rewrite lookup_insert_eq. }
  split; [exact Hres |]. split.
  - rewrite exec_Done. cbv zeta.
    cbn [ImageStreamTags_Get memory_client]. rewrite Hnew, Hfrom'.
    cbn [result]. unfold Semantic_DeepEqual. by rewrite bool_decide_eq_true_2.
  - destruct (Run_in_memory ctx (final ran) from Hsteps Hfrom') as [Hres' Hfinal'].
    split; [exact Hres' |].
    rewrite Hfinal'. rewrite Hnew.
    change (ResourceVersion (ist_ObjectMeta (set_ResourceVersion desired rv))) with rv.
    rewrite Hfinal. cbn [tags streams]. by rewrite insert_insert_eq.
Qed.

(** X10.  When the image stream cannot be fetched, the exported parameter fails
    with an error that names the fetch and wraps the message of the store,
    whatever the reason, [NotFound] included, and its value is empty. *)
Theorem provider_fetch_error (St : Type) (c : Client St) (st st1 : St) (err : error) :
  ImageStreams_Get c (namespace s) (to_Name (To (config s))) st = (inr err, st1) ->
  let out := exec c (image_parameter s) st in
  result out = ("", Some (errorString ("could not retrieve output imagestream: "
                                      +:+ Error err)))
  /\ trace out = [IsGet (namespace s) (to_Name (To (config s)))].
Proof.
  intros Hget out. subst out. unfold image_parameter.
  cbn [exec bind call handle result trace final fst snd]. by rewrite Hget.
Qed.

(** X11.  Against any store, the exported parameter makes one remote call, the
    fetch of the image stream, and either fails with an empty value or
    returns an address made of a non-empty repository, a colon and the
    tag of the target: never an address without a repository. *)
Theorem provider_value_or_error (St : Type) (c : Client St) (st : St) :
  let out := exec c (image_parameter s) st in
  trace out = [IsGet (namespace s) (to_Name (To (config s)))]
  /\ ((exists err, result out = ("", Some err))
      \/ (exists registry : string,
             registry <> ""
             /\ result out = (registry +:+ ":" +:+ to_Tag (To (config s)), None))).
Proof.
  intros out. subst out. unfold image_parameter.
  cbn [exec bind call handle result trace final fst snd].
  destruct (ImageStreams_Get c _ _ st) as [[is_ | err] st1]; cbn [fst snd].
  - rewrite !length_pos_string.
    destruct (bool_decide_reflect (PublicDockerImageRepository (Status is_) = ""))
      as [Ep | Ep]; cbn [negb].
    + destruct (bool_decide_reflect (DockerImageRepository (Status is_) = ""))
        as [Ei | Ei]; cbn [negb exec result trace].
      * split; [done |]. left. by eexists.
      * split; [done |]. right. by eexists.
    + cbn [exec result trace]. split; [done |]. right. by eexists.
  - cbn [exec result trace]. split; [done |]. left. by eexists.
Qed.

(** X12.  The parameter map never holds more than one name.  With [As] given, of
    ASCII bytes, that name is [IMAGE_] followed by as many bytes as [As]
    has, none of them a dash or a lower-case letter; a name that is
    already upper case with underscores is kept as it is. *)
Theorem Provides_parameter_name :
  As (To (config s)) <> "" ->
  forallb is_ascii (list_ascii_of_string (As (To (config s)))) = true ->
  exists key : string,
    dom (fst (Provides s)) = ({[ "IMAGE_" +:+ key ]} : gset string)
    /\ String.length key = String.length (As (To (config s)))
    /\ Forall (fun ch => ch <> "-"%char /\ is_lower ch = false)
              (list_ascii_of_string key)
    /\ (forallb (fun ch => negb (is_lower ch) && negb (Ascii.eqb ch "-"))
                (list_ascii_of_string (As (To (config s)))) = true ->
        key = As (To (config s))).
Proof.
  intros Has _. exists (ToUpper (replace_dash (As (To (config s))))).
  split; [| split; [apply parameter_name_length | split; [apply parameter_name_chars |]]].
  - unfold Provides. rewrite length_zero_string.
    rewrite bool_decide_eq_false_2 by done. cbn [fst]. by rewrite dom_singleton_L.
  - generalize (As (To (config s))). intros x.
    induction x as [| ch x IH]; cbn [list_ascii_of_string forallb replace_dash ToUpper];
      [done |].
    intros E. apply andb_prop in E as [E1 E2]. apply andb_prop in E1 as [E1 E3].
    rewrite IH by done. apply negb_true_iff in E3. rewrite E3.
    rewrite upper_ascii_keeps_underscore; [done | by apply negb_true_iff].
Qed.

(** X13.  The links of the step.  The link returned with the parameters, when
    there is one, is a link the step creates; the external link of the
    target is always created; and the step creates a link that it also
    requires exactly when [As] is given and equal to [From]. *)
Theorem links_of_the_step :
  (forall l : StepLink, snd (Provides s) = Some l -> l ∈ Creates s)
  /\ ExternalImageLink (To (config s)) ∈ Creates s
  /\ ((exists l : StepLink, l ∈ Requires s /\ l ∈ Creates s)
      <-> As (To (config s)) <> "" /\ As (To (config s)) = cfg_From (config s)).
Proof.
  unfold Provides, Creates, Requires.
  rewrite length_zero_string, length_pos_string.
  destruct (bool_decide_reflect (As (To (config s)) = "")) as [E | E]; cbn [negb snd].
  - split; [discriminate |]. split; [by left |]. split.
    + intros (l & Hr & Hc). apply list_elem_of_singleton in Hc as ->.
      apply elem_of_cons in Hr as [Hr | Hr]; [discriminate |].
      apply list_elem_of_singleton in Hr. discriminate.
    + by intros [Hne _].
  - split; [intros l [= <-]; by left |]. split; [by left |]. split.
    + intros (l & Hr & Hc). split; [done |].
      apply elem_of_cons in Hc as [-> | Hc].
      * apply elem_of_cons in Hr as [Hr | Hr]; [discriminate |].
        apply list_elem_of_singleton in Hr. discriminate.
      * apply list_elem_of_singleton in Hc as ->.
        apply elem_of_cons in Hr as [[= Hr] | Hr]; [done |].
        apply list_elem_of_singleton in Hr. discriminate.
    + intros [_ Heq]. exists (InternalImageLink (cfg_From (config s))).
      split; [by left |]. rewrite Heq. right. by left.
Qed.

(** X14.  The name of the step is never empty, and it is the exported name
    whenever there is one. *)
Theorem step_Name_not_empty :
  step_Name s <> ""
  /\ (As (To (config s)) <> "" -> step_Name s = As (To (config s))).
Proof.
  unfold step_Name. rewrite length_zero_string.
  destruct (bool_decide_reflect (As (To (config s)) = "")) as [E | E]; split; done.
Qed.

(** X15.  The desired resource determines the image it is built on: two images
    give the same desired tag only when they are the same image.  Its name
    and namespace do not depend on the image. *)
Theorem imageStreamTag_injective (a b : string) :
  (Tag (imageStreamTag s a) = Tag (imageStreamTag s b) -> a = b)
  /\ ist_ObjectMeta (imageStreamTag s a) = ist_ObjectMeta (imageStreamTag s b).
Proof.
  split; [| reflexivity]. cbn. intros [= E].
  by apply append_inj_r, append_inj_r in E.
Qed.
(** X9.  A dry run whose desired resource does not marshal fails with an error
    that names the marshalling; nothing is printed and the store is not
    reached. *)
Theorem Run_dry_marshal_error (ctx : Context) (St : Type) (c : Client St) (st : St)
    (err : error) :
  MarshalIndent (imageStreamTag s "dry-fake") = inr err ->
  let out := exec c (Run s ctx true) st in
  result out = Some (errorString ("failed to marshal imagestreamtag: " +:+ Error err))
  /\ trace out = [tagging]
  /\ final out = st.
Proof.
  intros E out. subst out. unfold Run. rewrite exec_log_if.
  cbn [negb exec bind call handle result trace final fst snd].
  by rewrite E.
Qed.
End Further.

(** ** The further properties at the fixtures *)

Lemma Done_fetch_error_witness :
  let out := exec broken_client (@Done sample_imports sample_step) tt in
  IsNotFound (StatusError StatusReasonUnknown "connection refused") = false
  /\ result out
     = (false, Some (errorString
                       "could not retrieve output imagestreamtag: connection refused"))
  /\ length (trace out) = 2.
Proof.
  intros out. split; [reflexivity |].
  destruct (@Done_fetch_error sample_imports sample_step unit broken_client tt tt
              (StatusError StatusReasonUnknown "connection refused") eq_refl eq_refl)
    as (Hres & Htrace & _).
  split; [exact Hres |]. unfold out. rewrite Htrace. reflexivity.
Defined.

Lemma Done_unresolved_source_witness :
  let out := exec memory_client (@Done sample_imports sample_step) orphan_store in
  tags orphan_store !! ("ci-op-1", "pipeline:builder") = None
  /\ result out
     = (false, Some (errorString
                       "could not resolve base image: imagestreamtag pipeline:builder not found")).
Proof.
  intros out. split; [vm_compute; reflexivity |].
  destruct (@Done_unresolved_source sample_imports sample_step Store memory_client
              orphan_store orphan_store orphan_store (stable_tag "sha256:aaa")
              (StatusError StatusReasonNotFound "imagestreamtag pipeline:builder not found")
              ltac:(vm_compute; reflexivity) ltac:(vm_compute; reflexivity))
    as [Hres _].
  exact Hres.
Defined.

Lemma Done_true_is_sound_witness :
  let st := tagged_store "sha256:aaa" "sha256:aaa" in
  fst (result (exec memory_client (@Done sample_imports sample_step) st)) = true
  /\ exists tag : TagReference,
       tags st !! ("ci-op-1", "stable:latest")
       = Some (mkImageStreamTag (mkObjectMeta "stable:latest" "ci-op-1" "8") (Some tag)
                 (mkImage (mkObjectMeta "sha256:aaa" "" "")))
       /\ From tag = Some (mkObjectReference "ImageStreamImage" "pipeline@sha256:aaa"
                             "ci-op-1" "" "" "" "").
Proof.
  intros st.
  assert (fst (result (exec memory_client (@Done sample_imports sample_step) st)) = true)
    as Htrue by (vm_compute; reflexivity).
  split; [exact Htrue |].
  destruct (@Done_true_is_sound sample_imports sample_step Store memory_client st Htrue)
    as (actual & from & st1 & st2 & tag & Hget & Hsrc & Htag & Hfrom & _).
  assert (ImageStreamTags_Get memory_client "ci-op-1" "stable:latest" st
          = (inl (stable_tag "sha256:aaa"), st)) as Hget' by (vm_compute; reflexivity).
  assert (ImageStreamTags_Get memory_client "ci-op-1" "pipeline:builder" st
          = (inl (builder_tag "sha256:aaa"), st)) as Hsrc' by (vm_compute; reflexivity).
  change (ImageStreamTags_Get memory_client "ci-op-1" "stable:latest" st
          = (inl actual, st1)) in Hget.
  rewrite Hget' in Hget. injection Hget as <- <-.
  change (ImageStreamTags_Get memory_client "ci-op-1" "pipeline:builder" st
          = (inl from, st2)) in Hsrc.
  rewrite Hsrc' in Hsrc. injection Hsrc as <- <-.
  exists tag. split; [| exact Hfrom].
  assert (tags st !! ("ci-op-1", "stable:latest") = Some (stable_tag "sha256:aaa")) as ->
    by (vm_compute; reflexivity).
  unfold stable_tag in *. cbn [Tag] in Htag. rewrite Htag. reflexivity.
Defined.

Lemma Run_created_witness :
  let st := built_store "sha256:aaa" in
  let out := exec memory_client (@Run sample_imports sample_step tt false) st in
  tags st !! ("ci-op-1", "stable:latest") = None
  /\ result out = None
  /\ List.filter is_remote (trace out)
     = [IstGet "ci-op-1" "pipeline:builder";
        IstCreate "ci-op-1" (@imageStreamTag sample_imports sample_step "sha256:aaa")].
Proof.
  intros st out. split; [vm_compute; reflexivity |].
  destruct (@Run_created sample_imports sample_step tt Store memory_client st st
              (mkStore (<[("ci-op-1", "stable:latest")
                          := @imageStreamTag sample_imports sample_step "sha256:aaa"]>
                          (tags st)) (streams st))
              (builder_tag "sha256:aaa")
              (@imageStreamTag sample_imports sample_step "sha256:aaa")
              ltac:(vm_compute; reflexivity) ltac:(vm_compute; reflexivity))
    as (Hres & Htrace & _).
  split; [exact Hres |]. unfold out. rewrite Htrace. reflexivity.
Defined.

Lemma Run_update_failure_is_fatal_witness :
  let existing := stable_tag "sha256:old" in
  let rejected := exec (rejecting_client existing)
                       (@Run sample_imports sample_step tt false) tt in
  let vanished := exec (vanishing_client existing)
                       (@Run sample_imports sample_step tt false) 0 in
  0 < Steps (@DefaultRetry sample_imports)
  /\ result rejected
     = Some (errorString "could not update output imagestreamtag: invalid")
  /\ updates (trace rejected) = 1
  /\ result vanished
     = Some (errorString "could not update output imagestreamtag: not found")
  /\ updates (trace vanished) = 0.
Proof.
  intros existing rejected vanished.
  assert (0 < Steps (@DefaultRetry sample_imports)) as Hsteps by (cbn; lia).
  split; [exact Hsteps |].
  destruct (@Run_update_failure_is_fatal sample_imports sample_step tt unit
              (rejecting_client existing) tt tt tt existing
              (StatusError StatusReasonAlreadyExists "already exists")
              Hsteps eq_refl eq_refl eq_refl) as [_ Hupdate].
  destruct (Hupdate existing (StatusError StatusReasonUnknown "invalid") tt tt
              eq_refl eq_refl eq_refl) as (Hres & Htrace & _).
  split; [exact Hres |].
  split; [unfold rejected; rewrite Htrace; reflexivity |].
  destruct (@Run_update_failure_is_fatal sample_imports sample_step tt nat
              (vanishing_client existing) 0 1 1 existing
              (StatusError StatusReasonAlreadyExists "already exists")
              Hsteps eq_refl eq_refl eq_refl) as [Hfetch _].
  destruct (Hfetch (StatusError StatusReasonNotFound "not found") 2 eq_refl eq_refl)
    as (Hres' & Htrace' & _).
  split; [exact Hres' |]. unfold vanished. rewrite Htrace'. reflexivity.
Defined.

Lemma Run_writes_desired_witness :
  let existing := stable_tag "sha256:old" in
  let out := exec (contended_client existing)
                  (@Run sample_imports sample_step tt false) 2 in
  updates (trace out) = 3
  /\ Forall (fun o => forall w, written o = Some w ->
                                exists rv, w = set_ResourceVersion
                                               (@imageStreamTag sample_imports sample_step
                                                  "sha256:old") rv)
            (trace out).
Proof.
  intros existing out. split; [vm_compute; reflexivity |].
  exact (@Run_writes_desired sample_imports sample_step tt nat
           (contended_client existing) 2 2 existing eq_refl).
Defined.

Lemma Run_then_Done_in_memory_witness :
  let st := built_store "sha256:aaa" in
  let ran := exec memory_client (@Run sample_imports sample_step tt false) st in
  0 < Steps (@DefaultRetry sample_imports)
  /\ tags st !! ("ci-op-1", "pipeline:builder") = Some (builder_tag "sha256:aaa")
  /\ result ran = None
  /\ result (exec memory_client (@Done sample_imports sample_step) (final ran)) = (true, None)
  /\ final (exec memory_client (@Run sample_imports sample_step tt false) (final ran))
     = final ran.
Proof.
  intros st ran.
  assert (0 < Steps (@DefaultRetry sample_imports)) as Hsteps by (cbn; lia).
  assert (tags st !! ("ci-op-1", "pipeline:builder") = Some (builder_tag "sha256:aaa"))
    as Hfrom by (vm_compute; reflexivity).
  split; [exact Hsteps |]. split; [exact Hfrom |].
  destruct (@Run_then_Done_in_memory sample_imports sample_step tt st
              (builder_tag "sha256:aaa") Hsteps Hfrom ltac:(discriminate))
    as (Hres & Hdone & _ & Hsame).
  split; [exact Hres |]. split; [exact Hdone | exact Hsame].
Defined.

Lemma provider_fetch_error_witness :
  result (exec memory_client (image_parameter exporting_step) empty_store)
  = ("", Some (errorString
                 "could not retrieve output imagestream: imagestream stable not found")).
Proof.
  destruct (provider_fetch_error exporting_step Store memory_client empty_store empty_store
              (StatusError StatusReasonNotFound "imagestream stable not found")
              ltac:(vm_compute; reflexivity)) as [Hres _].
  exact Hres.
Defined.

Lemma Provides_parameter_name_witness :
  As (To (config exporting_step)) = "test-bin"
  /\ dom (fst (Provides exporting_step)) = ({[ "IMAGE_TEST_BIN" ]} : gset string)
  /\ exists key : string,
       dom (fst (Provides exporting_step)) = ({[ "IMAGE_" +:+ key ]} : gset string)
       /\ String.length key = 8.
Proof.
  split; [reflexivity |]. split; [vm_compute; reflexivity |].
  destruct (Provides_parameter_name exporting_step ltac:(discriminate) eq_refl)
    as (key & Hdom & Hlen & _).
  exists key. split; [exact Hdom | exact Hlen].
Defined.

Lemma links_of_the_step_witness :
  ExternalImageLink (To (config exporting_step)) ∈ Creates exporting_step
  /\ (exists l : StepLink, l ∈ Requires renaming_step /\ l ∈ Creates renaming_step)
  /\ ~ (exists l : StepLink, l ∈ Requires exporting_step /\ l ∈ Creates exporting_step).
Proof.
  destruct (links_of_the_step exporting_step) as (Hprov & _ & Hloop).
  split; [exact (Hprov _ eq_refl) |].
  destruct (links_of_the_step renaming_step) as (_ & _ & Hloop').
  split.
  - apply Hloop'. split; [discriminate | reflexivity].
  - intros Hex. apply Hloop in Hex as [_ Heq]. discriminate Heq.
Defined.

Lemma step_Name_not_empty_witness :
  step_Name exporting_step = "test-bin" /\ step_Name sample_step = "[output:stable:latest]".
Proof.
  split; [| reflexivity].
  destruct (step_Name_not_empty exporting_step) as [_ Hname].
  exact (Hname ltac:(discriminate)).
Defined.

Lemma imageStreamTag_injective_witness :
  Tag (@imageStreamTag sample_imports sample_step "sha256:aaa")
  = Tag (@imageStreamTag sample_imports sample_step "sha256:aaa")
  /\ Tag (@imageStreamTag sample_imports sample_step "sha256:aaa")
     <> Tag (@imageStreamTag sample_imports sample_step "sha256:bbb").
Proof.
  destruct (@imageStreamTag_injective sample_imports sample_step "sha256:aaa" "sha256:aaa")
    as [Hsame _].
  split; [pose proof (Hsame eq_refl) as Heq; reflexivity |].
  intros E.
  destruct (@imageStreamTag_injective sample_imports sample_step "sha256:aaa" "sha256:bbb")
    as [Hinj _].
  specialize (Hinj E). discriminate Hinj.
Defined.

Lemma Run_dry_marshal_error_witness :
  let out := exec memory_client (@Run unmarshalable_imports sample_step tt true) empty_store in
  result out
  = Some (errorString "failed to marshal imagestreamtag: json: unsupported value")
  /\ final out = empty_store.
Proof.
  intros out.
  destruct (@Run_dry_marshal_error unmarshalable_imports sample_step tt Store memory_client
              empty_store (errorString "json: unsupported value") eq_refl)
    as (Hres & _ & Hfinal).
  split; [exact Hres | exact Hfinal].
Defined.

